(** * Retain-height pruner (state/pruner.go)

    A shallow embedding of the [Pruner] service: the three retain-height
    setters, [FindMinRetainHeight], [pruneBlocks] and the body of
    [pruningRoutine].  The two collaborators of the pruner, the block store
    and the state store, are Go interfaces; they are type classes here and
    every method of the pruner is written against them. *)

From Stdlib Require Import ZArith List String Bool Lia.
Import ListNotations.
Local Open Scope Z_scope.

(** ** Go values *)

(** [int64] heights.  The pruner only compares heights, it never adds or
    subtracts them, so no wrap-around is involved. *)
Definition int64 : Type := Z.
Definition uint64 : Type := N.

(** Go's [error] interface.  [err_nil] is the nil error; [ErrKeyNotFound] and
    [ErrInvalidHeightValue] are the package-level sentinels the pruner tests
    and returns; [errors_New] is a value built by [errors.New]; [ErrExternal]
    stands for any other error produced by a collaborator. *)
Inductive error : Type :=
| err_nil
| ErrKeyNotFound
| ErrInvalidHeightValue
| errors_New (msg : string)
| ErrExternal (code : nat).

(** The error both block-related setters and the ABCI setter build when the
    requested height is below a height already recorded. *)
Definition RetainHeightRegression : error :=
  errors_New "cannot set a height lower than previously requested - blocks might have already been pruned"%string.

Definition InvalidArgument : error :=
  errors_New "retain height cannot be less or equal than 0"%string.

Inductive LogLevel : Type := LvlError | LvlDebug.
Definition LogLine : Type := (LogLevel * string)%type.

(** ** The collaborators *)

Section Interfaces.
Variable State : Type.

(** Go interface [BlockStore], restricted to the methods the pruner calls.
    [PruneBlocks] mutates the ledger, so it also returns the new ledger. *)
Class BlockStore (B : Type) : Type := {
  Base : B -> int64;
  Height : B -> int64;
  PruneBlocks : int64 -> State -> B -> (uint64 * int64 * error) * B
}.

(** Go interface [Store], restricted to the methods the pruner calls.  A
    getter returns the Go pair (value, error) as it is; a method that
    writes returns its results and the new store. *)
Class Store (S : Type) : Type := {
  GetApplicationRetainHeight : S -> int64 * error;
  GetCompanionBlockRetainHeight : S -> int64 * error;
  GetABCIResRetainHeight : S -> int64 * error;
  SaveApplicationRetainHeight : int64 -> S -> error * S;
  SaveCompanionBlockRetainHeight : int64 -> S -> error * S;
  SaveABCIResRetainHeight : int64 -> S -> error * S;
  Load : S -> State * error;
  PruneStates : int64 -> int64 -> int64 -> S -> error * S;
  PruneABCIResponses : int64 -> S -> (uint64 * error) * S
}.

(** One entry per call the pruner makes on a collaborator. *)
Inductive Call : Type :=
| bs_Base
| bs_Height
| bs_PruneBlocks (height : int64) (state : State)
| ss_GetApplicationRetainHeight
| ss_GetCompanionBlockRetainHeight
| ss_GetABCIResRetainHeight
| ss_SaveApplicationRetainHeight (height : int64)
| ss_SaveCompanionBlockRetainHeight (height : int64)
| ss_SaveABCIResRetainHeight (height : int64)
| ss_Load
| ss_PruneStates (base height evRetainHeight : int64)
| ss_PruneABCIResponses (height : int64)
| time_Sleep.

(** The calls that command a collaborator to change what it stores. *)
Definition is_write (c : Call) : bool :=
  match c with
  | bs_PruneBlocks _ _
  | ss_SaveApplicationRetainHeight _
  | ss_SaveCompanionBlockRetainHeight _
  | ss_SaveABCIResRetainHeight _
  | ss_PruneStates _ _ _
  | ss_PruneABCIResponses _ => true
  | _ => false
  end.

Definition writes (cs : list Call) : list Call := filter is_write cs.
End Interfaces.

Arguments Base {State B _} _.
Arguments Height {State B _} _.
Arguments PruneBlocks {State B _} _ _ _.
Arguments GetApplicationRetainHeight {State S _} _.
Arguments GetCompanionBlockRetainHeight {State S _} _.
Arguments GetABCIResRetainHeight {State S _} _.
Arguments SaveApplicationRetainHeight {State S _} _ _.
Arguments SaveCompanionBlockRetainHeight {State S _} _ _.
Arguments SaveABCIResRetainHeight {State S _} _ _.
Arguments Load {State S _} _.
Arguments PruneStates {State S _} _ _ _ _.
Arguments PruneABCIResponses {State S _} _ _.
Arguments bs_Base {State}.
Arguments bs_Height {State}.
Arguments bs_PruneBlocks {State} height state.
Arguments ss_GetApplicationRetainHeight {State}.
Arguments ss_GetCompanionBlockRetainHeight {State}.
Arguments ss_GetABCIResRetainHeight {State}.
Arguments ss_SaveApplicationRetainHeight {State} height.
Arguments ss_SaveCompanionBlockRetainHeight {State} height.
Arguments ss_SaveABCIResRetainHeight {State} height.
Arguments ss_Load {State}.
Arguments ss_PruneStates {State} base height evRetainHeight.
Arguments ss_PruneABCIResponses {State} height.
Arguments time_Sleep {State}.
Arguments is_write {State} c.
Arguments writes {State} cs.

(** ** The pruner *)

(** The [Pruner] struct.  [bs] and [stateStore] are the two collaborators,
    [logger] is the list of lines logged so far and [interval] the sleep
    between two runs.  [calls] is not a field of the Go struct: it is the
    history of the calls made on the collaborators, kept so that statements
    can speak of which calls a method makes. *)
Record Pruner {State B S : Type} : Type := mkPruner {
  bs : B;
  stateStore : S;
  logger : list LogLine;
  interval : Z;
  calls : list (Call State)
}.
Arguments Pruner : clear implicits.

Section PrunerCode.
Context {State B S : Type} {BSI : BlockStore State B} {SSI : Store State S}.

(** Methods with a pointer receiver: state passing over the pruner. *)
Definition M (A : Type) : Type := Pruner State B S -> A * Pruner State B S.

Definition ret {A : Type} (a : A) : M A := fun p => (a, p).

Definition bind {A C : Type} (m : M A) (k : A -> M C) : M C :=
  fun p => let (a, p') := m p in k a p'.

Definition noted (c : Call State) (p : Pruner State B S) : Pruner State B S :=
  mkPruner State B S (bs p) (stateStore p) (logger p) (interval p) (calls p ++ [c]).

Definition with_bs (b : B) (p : Pruner State B S) : Pruner State B S :=
  mkPruner State B S b (stateStore p) (logger p) (interval p) (calls p).

Definition with_stateStore (s : S) (p : Pruner State B S) : Pruner State B S :=
  mkPruner State B S (bs p) s (logger p) (interval p) (calls p).

Definition logged (l : LogLine) (p : Pruner State B S) : Pruner State B S :=
  mkPruner State B S (bs p) (stateStore p) (logger p ++ [l]) (interval p) (calls p).

(** [p.bs.Base()], [p.bs.Height()], [p.bs.PruneBlocks(height, state)] *)
Definition p_bs_Base : M int64 :=
  fun p => (Base (bs p), noted bs_Base p).

Definition p_bs_Height : M int64 :=
  fun p => (Height (bs p), noted bs_Height p).

Definition p_bs_PruneBlocks (height : int64) (state : State)
  : M (uint64 * int64 * error) :=
  fun p => let (r, b) := PruneBlocks height state (bs p) in
           (r, with_bs b (noted (bs_PruneBlocks height state) p)).

(** [p.stateStore.Get...()] *)
Definition p_stateStore_GetApplicationRetainHeight : M (int64 * error) :=
  fun p => (GetApplicationRetainHeight (stateStore p),
            noted ss_GetApplicationRetainHeight p).

Definition p_stateStore_GetCompanionBlockRetainHeight : M (int64 * error) :=
  fun p => (GetCompanionBlockRetainHeight (stateStore p),
            noted ss_GetCompanionBlockRetainHeight p).

Definition p_stateStore_GetABCIResRetainHeight : M (int64 * error) :=
  fun p => (GetABCIResRetainHeight (stateStore p),
            noted ss_GetABCIResRetainHeight p).

(** [p.stateStore.Save...(height)] *)
Definition p_stateStore_SaveApplicationRetainHeight (height : int64) : M error :=
  fun p => let (e, s) := SaveApplicationRetainHeight height (stateStore p) in
           (e, with_stateStore s (noted (ss_SaveApplicationRetainHeight height) p)).

Definition p_stateStore_SaveCompanionBlockRetainHeight (height : int64) : M error :=
  fun p => let (e, s) := SaveCompanionBlockRetainHeight height (stateStore p) in
           (e, with_stateStore s (noted (ss_SaveCompanionBlockRetainHeight height) p)).

Definition p_stateStore_SaveABCIResRetainHeight (height : int64) : M error :=
  fun p => let (e, s) := SaveABCIResRetainHeight height (stateStore p) in
           (e, with_stateStore s (noted (ss_SaveABCIResRetainHeight height) p)).

(** [p.stateStore.Load()], [PruneStates], [PruneABCIResponses] *)
Definition p_stateStore_Load : M (State * error) :=
  fun p => (Load (stateStore p), noted ss_Load p).

Definition p_stateStore_PruneStates (base height evRetainHeight : int64) : M error :=
  fun p => let (e, s) := PruneStates base height evRetainHeight (stateStore p) in
           (e, with_stateStore s (noted (ss_PruneStates base height evRetainHeight) p)).

Definition p_stateStore_PruneABCIResponses (height : int64) : M (uint64 * error) :=
  fun p => let (r, s) := PruneABCIResponses height (stateStore p) in
           (r, with_stateStore s (noted (ss_PruneABCIResponses height) p)).

(** [p.logger.Error(msg, ...)], [p.logger.Debug(msg, ...)]; the key/value
    pairs that follow the message are not kept. *)
Definition p_logger_Error (msg : string) : M unit :=
  fun p => (tt, logged (LvlError, msg) p).

Definition p_logger_Debug (msg : string) : M unit :=
  fun p => (tt, logged (LvlDebug, msg) p).

(** [time.Sleep(p.interval)] *)
Definition time_Sleep_interval : M unit :=
  fun p => (tt, noted time_Sleep p).

(** Sequencing of method calls. *)
Notation "x <- m ;; k" := (bind m (fun x => k))
  (at level 61, m at next level, right associativity).
Notation "' pat <- m ;; k" := (bind m (fun x => match x with pat => k end))
  (at level 61, pat pattern, m at next level, right associativity).
Notation "m ;;; k" := (bind m (fun _ => k))
  (at level 61, right associativity).

(** [height <= 0 || height < p.bs.Base() || height > p.bs.Height()], with
    Go's left-to-right short-circuit evaluation. *)
Definition block_height_invalid (height : int64) : M bool :=
  if height <=? 0 then ret true else
  base <- p_bs_Base ;;
  if height <? base then ret true else
  top <- p_bs_Height ;;
  ret (height >? top).

(** [height <= 0 || height > p.bs.Height()] *)
Definition abci_height_invalid (height : int64) : M bool :=
  if height <=? 0 then ret true else
  top <- p_bs_Height ;;
  ret (height >? top).

(** [func (p *Pruner) SetApplicationRetainHeight(height int64) error].
    Here and below, a [match] on the error with the cases [err_nil],
    [ErrKeyNotFound] and any other error is Go's
    [if err != nil { if err == ErrKeyNotFound { ... } else { ... } }]. *)
Definition SetApplicationRetainHeight (height : int64) : M error :=
  invalid <- block_height_invalid height ;;
  if invalid then ret ErrInvalidHeightValue else
  '(currentAppRetainHeight, err) <- p_stateStore_GetApplicationRetainHeight ;;
  let after_app (currentAppRetainHeight : int64) : M error :=
    '(currentCompanionRetainHeight, err) <- p_stateStore_GetCompanionBlockRetainHeight ;;
    let after_companion (noCompanionRetainHeight : bool) : M error :=
      if (currentAppRetainHeight >? height)
         || (negb noCompanionRetainHeight && (currentCompanionRetainHeight >? height))
      then ret RetainHeightRegression
      else p_stateStore_SaveApplicationRetainHeight height in
    match err with
    | err_nil => after_companion false
    | ErrKeyNotFound => after_companion true
    | _ => ret err
    end in
  match err with
  | err_nil => after_app currentAppRetainHeight
  | ErrKeyNotFound => after_app height
  | _ => ret err
  end.

(** [func (p *Pruner) SetCompanionRetainHeight(height int64) error] *)
Definition SetCompanionRetainHeight (height : int64) : M error :=
  invalid <- block_height_invalid height ;;
  if invalid then ret ErrInvalidHeightValue else
  '(currentCompanionRetainHeight, err) <- p_stateStore_GetCompanionBlockRetainHeight ;;
  let after_companion (currentCompanionRetainHeight : int64) : M error :=
    '(currentAppRetainHeight, err) <- p_stateStore_GetApplicationRetainHeight ;;
    let after_app (noAppRetainHeight : bool) : M error :=
      if (currentCompanionRetainHeight >? height)
         || (negb noAppRetainHeight && (currentAppRetainHeight >? height))
      then ret RetainHeightRegression
      else p_stateStore_SaveCompanionBlockRetainHeight height in
    match err with
    | err_nil => after_app false
    | ErrKeyNotFound => after_app true
    | _ => ret err
    end in
  match err with
  | err_nil => after_companion currentCompanionRetainHeight
  | ErrKeyNotFound => after_companion height
  | _ => ret err
  end.

(** [func (p *Pruner) SetABCIResRetainHeight(height int64) error] *)
Definition SetABCIResRetainHeight (height : int64) : M error :=
  invalid <- abci_height_invalid height ;;
  if invalid then ret ErrInvalidHeightValue else
  '(currentRetainHeight, err) <- p_stateStore_GetABCIResRetainHeight ;;
  match err with
  | err_nil =>
      if currentRetainHeight >? height
      then ret RetainHeightRegression
      else p_stateStore_SaveABCIResRetainHeight height
  | ErrKeyNotFound => p_stateStore_SaveABCIResRetainHeight height
  | _ => ret err
  end.

(** [func (p *Pruner) FindMinRetainHeight() int64] *)
Definition FindMinRetainHeight : M int64 :=
  '(appRetainHeight, err) <- p_stateStore_GetApplicationRetainHeight ;;
  let after_app (noAppRetainHeightSet : bool) : M int64 :=
    '(dcRetainHeight, err) <- p_stateStore_GetCompanionBlockRetainHeight ;;
    let pick_minimum : M int64 :=
      if appRetainHeight <? dcRetainHeight
      then ret appRetainHeight
      else ret dcRetainHeight in
    match err with
    | err_nil => pick_minimum
    | ErrKeyNotFound =>
        if negb noAppRetainHeightSet then ret appRetainHeight else pick_minimum
    | _ => ret 0
    end in
  match err with
  | err_nil => after_app false
  | ErrKeyNotFound => after_app true
  | _ => ret 0
  end.

(** [func (p *Pruner) pruneBlocks(height int64)
      (pruned uint64, evRetainHeight int64, err error)].
    The named results start at their zero values, which is what the bare
    [return] after a failed [Load] gives back. *)
Definition pruneBlocks (height : int64) : M (uint64 * int64 * error) :=
  if height <=? 0 then ret (0%N, 0, InvalidArgument) else
  base <- p_bs_Base ;;
  '(state, err) <- p_stateStore_Load ;;
  match err with
  | err_nil =>
      '(pruned, evRetainHeight, err) <- p_bs_PruneBlocks height state ;;
      match err with
      | err_nil => p_logger_Debug "Pruned blocks"%string
      | _ => p_logger_Error "Failed to prune blocks at height"%string
      end ;;;
      err <- p_stateStore_PruneStates base height evRetainHeight ;;
      match err with
      | err_nil => ret tt
      | _ => p_logger_Error "Failed to prune the state store"%string
      end ;;;
      ret (pruned, evRetainHeight, err)
  | _ =>
      p_logger_Error "Failed to load state, cannot prune"%string ;;;
      ret (0%N, 0, err)
  end.

(** The [default:] branch of the [select] in [pruningRoutine]: one run of
    the loop body.  It takes the two local cursors of the loop and returns
    them as they are when the iteration ends. *)
Definition pruningIteration (lastHeightPruned lastABCIResPrunedHeight : int64)
  : M (int64 * int64) :=
  retainHeight <- FindMinRetainHeight ;;
  lastHeightPruned <-
    (if negb (retainHeight =? lastHeightPruned) then
       '(pruned, evRetainHeight, err) <- pruneBlocks retainHeight ;;
       match err with
       | err_nil => p_logger_Debug "Pruned block(s)"%string
       | _ => p_logger_Error "Failed to prune blocks"%string
       end ;;;
       ret retainHeight
     else ret lastHeightPruned) ;;
  '(ABCIResRetainHeight, err) <- p_stateStore_GetABCIResRetainHeight ;;
  match err with
  | err_nil =>
      if negb (lastABCIResPrunedHeight =? ABCIResRetainHeight) then
        '(pruned, _) <- p_stateStore_PruneABCIResponses ABCIResRetainHeight ;;
        p_logger_Debug "Number of ABCI responses pruned: "%string
      else ret tt
  | _ => ret tt
  end ;;;
  time_Sleep_interval ;;;
  ret (lastHeightPruned, lastABCIResPrunedHeight).

(** [pruningRoutine], observed over a finite prefix of its run.  [quit]
    lists, iteration by iteration, whether the receive on [p.Quit()] was
    ready at the [select]; the loop returns at the first [true].  The
    result is the pair of cursors at the point where the observation
    stops. *)
Fixpoint pruningLoop (quit : list bool)
  (lastHeightPruned lastABCIResPrunedHeight : int64) : M (int64 * int64) :=
  match quit with
  | [] => ret (lastHeightPruned, lastABCIResPrunedHeight)
  | true :: _ => ret (lastHeightPruned, lastABCIResPrunedHeight)
  | false :: quit' =>
      '(lastHeightPruned', lastABCIResPrunedHeight') <-
        pruningIteration lastHeightPruned lastABCIResPrunedHeight ;;
      pruningLoop quit' lastHeightPruned' lastABCIResPrunedHeight'
  end.

Definition pruningRoutine (quit : list bool) : M (int64 * int64) :=
  pruningLoop quit 0 0.
End PrunerCode.

(** ** What a setter sees when it reads a watermark *)

(** The three outcomes of a getter: a stored height, the not-found signal, or
    any other error. *)
Inductive Reading : Type :=
| Found (height : int64)
| NotFound
| ReadFailed (err : error).

Definition reading (r : int64 * error) : Reading :=
  match snd r with
  | err_nil => Found (fst r)
  | ErrKeyNotFound => NotFound
  | e => ReadFailed e
  end.

Definition readable (r : Reading) : Prop :=
  match r with
  | ReadFailed _ => False
  | _ => True
  end.

(** The stakeholder's own current height, an unset one counting as the
    requested height. *)
Definition own_current (height : int64) (r : Reading) : int64 :=
  match r with
  | Found v => v
  | _ => height
  end.

(** The other stakeholder's current height exceeds the requested one; an
    unset one is no constraint. *)
Definition other_exceeds (height : int64) (r : Reading) : Prop :=
  match r with
  | Found v => height < v
  | _ => False
  end.

(** The watermark is unset or at most [height]. *)
Definition at_most (height : int64) (r : Reading) : Prop :=
  match r with
  | Found v => v <= height
  | NotFound => True
  | ReadFailed _ => False
  end.

Inductive Watermark : Type := Application | Companion | ABCIResults.

Section StoreAccess.
Context {State S : Type} {SSI : Store State S}.

Definition Get (w : Watermark) (s : S) : int64 * error :=
  match w with
  | Application => GetApplicationRetainHeight s
  | Companion => GetCompanionBlockRetainHeight s
  | ABCIResults => GetABCIResRetainHeight s
  end.

Definition Save (w : Watermark) (height : int64) (s : S) : error * S :=
  match w with
  | Application => SaveApplicationRetainHeight height s
  | Companion => SaveCompanionBlockRetainHeight height s
  | ABCIResults => SaveABCIResRetainHeight height s
  end.

(** Modelled from the spec: the watermark store "persists three independent
    height values with get/set semantics".  The store itself is not part of
    pruner.go; these are the two laws that sentence gives: a height saved
    without error is the one read back, and saving one watermark leaves the
    other two as they were. *)
Class StoreLaws : Prop := {
  get_after_save : forall w height s,
    fst (Save w height s) = err_nil ->
    Get w (snd (Save w height s)) = (height, err_nil);
  get_other_after_save : forall w w' height s,
    w <> w' -> Get w' (snd (Save w height s)) = Get w' s
}.

(** The store never answers with the pruner's own range error. *)
Definition no_range_error_from (s : S) : Prop :=
  (forall w, snd (Get w s) <> ErrInvalidHeightValue) /\
  (forall w height, fst (Save w height s) <> ErrInvalidHeightValue).
End StoreAccess.

Arguments StoreLaws {State} S {SSI}.

(** ** An in-memory block store and state store *)

(** The consensus state is opaque to the pruner: it is loaded from the state
    store and handed to the ledger as it is. *)
Definition MemState : Type := unit.

(** Modelled from the spec: the block ledger "reports the lowest and highest
    block heights currently retained (Base, Height) and performs physical
    block deletion given a target height and current consensus state,
    returning how many were removed and an evidence-retention floor".  The
    ledger is not part of pruner.go.  [prune_fault], when not nil, makes
    [PruneBlocks] fail with that error and with [floor_on_fault] as its
    second result. *)
Record MemLedger : Type := mkMemLedger {
  ledger_base : int64;
  ledger_height : int64;
  prune_fault : error;
  floor_on_fault : int64
}.

Definition MemLedger_PruneBlocks (height : int64) (state : MemState) (l : MemLedger)
  : (uint64 * int64 * error) * MemLedger :=
  match prune_fault l with
  | err_nil =>
      ((Z.to_N (height - ledger_base l), height, err_nil),
       mkMemLedger (Z.max (ledger_base l) height) (ledger_height l)
                   (prune_fault l) (floor_on_fault l))
  | e => ((0%N, floor_on_fault l, e), l)
  end.

#[export] Instance MemLedger_BlockStore : BlockStore MemState MemLedger := {|
  Base := ledger_base;
  Height := ledger_height;
  PruneBlocks := MemLedger_PruneBlocks
|}.

(** One persisted key: never written, holding a height, or unreadable. *)
Inductive Slot : Type :=
| Unset
| Stored (height : int64)
| Unreadable (err : error).

Definition read_slot (k : Slot) : int64 * error :=
  match k with
  | Unset => (0, ErrKeyNotFound)
  | Stored h => (h, err_nil)
  | Unreadable e => (0, e)
  end.

(** Modelled from the spec: the watermark store "persists three independent
    height values (application, companion, ABCI-results) with get/set
    semantics; returns a distinguished not-found signal when a value was never
    set", together with [Load], [PruneStates] and [PruneABCIResponses] of the
    state store.  The store is not part of pruner.go.  A getter on a key that
    was never written returns the zero height with [ErrKeyNotFound].  The
    fault fields, when not nil, make the corresponding method fail with that
    error; what the store deletes when it prunes is not modelled. *)
Record MemStore : Type := mkMemStore {
  app_key : Slot;
  companion_key : Slot;
  abci_key : Slot;
  write_fault : error;
  load_fault : error;
  prune_states_fault : error;
  prune_abci_fault : error
}.

Definition MemStore_save (w : Watermark) (height : int64) (s : MemStore)
  : error * MemStore :=
  match write_fault s with
  | err_nil =>
      (err_nil,
       match w with
       | Application =>
           mkMemStore (Stored height) (companion_key s) (abci_key s)
             (write_fault s) (load_fault s) (prune_states_fault s) (prune_abci_fault s)
       | Companion =>
           mkMemStore (app_key s) (Stored height) (abci_key s)
             (write_fault s) (load_fault s) (prune_states_fault s) (prune_abci_fault s)
       | ABCIResults =>
           mkMemStore (app_key s) (companion_key s) (Stored height)
             (write_fault s) (load_fault s) (prune_states_fault s) (prune_abci_fault s)
       end)
  | e => (e, s)
  end.

#[export] Instance MemStore_Store : Store MemState MemStore := {|
  GetApplicationRetainHeight := fun s => read_slot (app_key s);
  GetCompanionBlockRetainHeight := fun s => read_slot (companion_key s);
  GetABCIResRetainHeight := fun s => read_slot (abci_key s);
  SaveApplicationRetainHeight := MemStore_save Application;
  SaveCompanionBlockRetainHeight := MemStore_save Companion;
  SaveABCIResRetainHeight := MemStore_save ABCIResults;
  Load := fun s => (tt, load_fault s);
  PruneStates := fun _ _ _ s => (prune_states_fault s, s);
  PruneABCIResponses := fun _ s => ((0%N, prune_abci_fault s), s)
|}.

(** A ledger with blocks [base..height] and no fault. *)
Definition ledger (base height : int64) : MemLedger :=
  mkMemLedger base height err_nil 0.

(** A state store holding the three given keys and no fault. *)
Definition store (app companion abci : Slot) : MemStore :=
  mkMemStore app companion abci err_nil err_nil err_nil err_nil.

(** A pruner over the given stores that has logged nothing and made no call
    yet; it sleeps ten seconds (in nanoseconds) between two runs. *)
Definition idle_pruner {State B S : Type} (stateStore : S) (bs : B)
  : Pruner State B S :=
  mkPruner State B S bs stateStore [] 10000000000 [].

Definition MemPruner : Type := Pruner MemState MemLedger MemStore.

(** *** Concrete pruners used as inputs below *)

(** Nothing set, blocks 1 to 10. *)
Definition fresh : MemPruner :=
  idle_pruner (store Unset Unset Unset) (ledger 1 10).

(** Nothing set, blocks 5 to 10: the ledger was pruned up to 5. *)
Definition base_at_5 : MemPruner :=
  idle_pruner (store Unset Unset Unset) (ledger 5 10).

(** Only the companion height set, to 7; blocks 1 to 100. *)
Definition companion_only_7 : MemPruner :=
  idle_pruner (store Unset (Stored 7) Unset) (ledger 1 100).

(** Only the application height set, to 50; blocks 1 to 100. *)
Definition application_at_50 : MemPruner :=
  idle_pruner (store (Stored 50) Unset Unset) (ledger 1 100).

(** Only the companion height set, to 3 and to 7; blocks 1 to 10. *)
Definition companion_at_3 : MemPruner :=
  idle_pruner (store Unset (Stored 3) Unset) (ledger 1 10).

Definition companion_at_7 : MemPruner :=
  idle_pruner (store Unset (Stored 7) Unset) (ledger 1 10).

(** Only the ABCI-results height set, to 5; blocks 1 to 10. *)
Definition abci_at_5 : MemPruner :=
  idle_pruner (store Unset Unset (Stored 5)) (ledger 1 10).

(** Both block-related heights at 5 and a ledger whose [PruneBlocks] fails,
    giving back [floor] as its evidence retain height. *)
Definition ledger_prune_fails (floor : int64) : MemPruner :=
  idle_pruner (store (Stored 5) (Stored 5) Unset)
            (mkMemLedger 1 10 (ErrExternal 1) floor).

(** A state store whose [Load] fails. *)
Definition load_fails : MemPruner :=
  idle_pruner (mkMemStore (Stored 5) (Stored 5) Unset
                        err_nil (ErrExternal 2) err_nil err_nil)
            (ledger 1 10).

(** ** Vocabulary of the statements *)

Section Vocabulary.
Context {State B S : Type} {BSI : BlockStore State B} {SSI : Store State S}.

(** The range check of the two block-related setters. *)
Definition in_block_range (height : int64) (p : Pruner State B S) : Prop :=
  0 < height /\ Base (bs p) <= height /\ height <= Height (bs p).

(** The range check of the ABCI-results setter. *)
Definition in_abci_range (height : int64) (p : Pruner State B S) : Prop :=
  0 < height /\ height <= Height (bs p).

Definition save_call (w : Watermark) (height : int64) : Call State :=
  match w with
  | Application => ss_SaveApplicationRetainHeight height
  | Companion => ss_SaveCompanionBlockRetainHeight height
  | ABCIResults => ss_SaveABCIResRetainHeight height
  end.

(** From [p] to [p'] nothing was written: both collaborators are as they
    were and no writing call was made. *)
Definition wrote_nothing (p p' : Pruner State B S) : Prop :=
  bs p' = bs p /\ stateStore p' = stateStore p /\
  writes (calls p') = writes (calls p).

(** From [p] to [p'] exactly one write happened: the save of [height] under
    watermark [w]. *)
Definition persisted (w : Watermark) (height : int64) (p p' : Pruner State B S)
  : Prop :=
  bs p' = bs p /\
  stateStore p' = snd (Save w height (stateStore p)) /\
  writes (calls p') = writes (calls p) ++ [save_call w height].

(** The readings a setter takes: its own watermark and, for the two
    block-related setters, the watermark of the other stakeholder. *)
Definition own_reading (w : Watermark) (p : Pruner State B S) : Reading :=
  reading (Get w (stateStore p)).

Definition other_reading (w : Watermark) (p : Pruner State B S) : Reading :=
  match w with
  | Application => reading (Get Companion (stateStore p))
  | Companion => reading (Get Application (stateStore p))
  | ABCIResults => NotFound
  end.

Definition valid_for (w : Watermark) (height : int64) (p : Pruner State B S) : Prop :=
  match w with
  | ABCIResults => in_abci_range height p
  | _ => in_block_range height p
  end.

Definition setter (w : Watermark) (height : int64)
  : Pruner State B S -> error * Pruner State B S :=
  match w with
  | Application => SetApplicationRetainHeight height
  | Companion => SetCompanionRetainHeight height
  | ABCIResults => SetABCIResRetainHeight height
  end.

(** The condition under which a setter refuses an in-range height. *)
Definition regresses (w : Watermark) (height : int64) (p : Pruner State B S) : Prop :=
  height < own_current height (own_reading w p) \/
  other_exceeds height (other_reading w p).
End Vocabulary.

(** ** Construction of the pruner *)

(** [type prunerConfig struct { interval time.Duration }] *)
Record prunerConfig : Type := mkPrunerConfig {
  config_interval : Z
}.

(** [type PrunerOption], a function on a pointer to a [prunerConfig]: an
    option updates the configuration it is given. *)
Definition PrunerOption : Type := prunerConfig -> prunerConfig.

(** [func PrunerInterval(t time.Duration) PrunerOption] *)
Definition PrunerInterval (t : Z) : PrunerOption :=
  fun p => mkPrunerConfig t.

Section Construction.
(** [config.DefaultPruningInterval], a constant of another package. *)
Variable DefaultPruningInterval : Z.

(** [func defaultPrunerConfig() *prunerConfig] *)
Definition defaultPrunerConfig : prunerConfig :=
  mkPrunerConfig DefaultPruningInterval.

(** [func NewPruner(stateStore Store, bs BlockStore, logger log.Logger,
      options ...PrunerOption) *Pruner].  The options are applied to the
    default configuration from left to right.  The embedded [BaseService],
    which belongs to another package, is left out; the new pruner has made
    no call yet. *)
Definition NewPruner {State B S : Type} (stateStore : S) (bs : B)
  (logger : list LogLine) (options : list PrunerOption) : Pruner State B S :=
  let cfg := fold_left (fun cfg opt => opt cfg) options defaultPrunerConfig in
  mkPruner State B S bs stateStore logger (config_interval cfg) [].
End Construction.

(** *** Further concrete pruners *)

(** The application key cannot be read; the companion height is 7. *)
Definition application_unreadable : MemPruner :=
  idle_pruner (store (Unreadable (ErrExternal 3)) (Stored 7) Unset) (ledger 1 10).

(** The application height is 5; the companion key cannot be read. *)
Definition companion_unreadable : MemPruner :=
  idle_pruner (store (Stored 5) (Unreadable (ErrExternal 3)) Unset) (ledger 1 10).

(** Application height 5, companion height 7, ABCI-results height 4; blocks
    1 to 10. *)
Definition application_5_companion_7 : MemPruner :=
  idle_pruner (store (Stored 5) (Stored 7) (Stored 4)) (ledger 1 10).

(** Both block-related heights at 5 and a state store whose [PruneStates]
    fails. *)
Definition state_prune_fails : MemPruner :=
  idle_pruner (mkMemStore (Stored 5) (Stored 5) Unset
                          err_nil err_nil (ErrExternal 4) err_nil)
              (ledger 1 10).

(** ** Facts about the methods, shared by the theorems below *)

Ltac unfold_methods :=
  unfold setter, SetApplicationRetainHeight, SetCompanionRetainHeight,
    SetABCIResRetainHeight, FindMinRetainHeight, pruneBlocks,
    block_height_invalid, abci_height_invalid, bind, ret,
    p_bs_Base, p_bs_Height, p_bs_PruneBlocks,
    p_stateStore_GetApplicationRetainHeight,
    p_stateStore_GetCompanionBlockRetainHeight,
    p_stateStore_GetABCIResRetainHeight,
    p_stateStore_SaveApplicationRetainHeight,
    p_stateStore_SaveCompanionBlockRetainHeight,
    p_stateStore_SaveABCIResRetainHeight,
    p_stateStore_Load, p_stateStore_PruneStates,
    p_stateStore_PruneABCIResponses,
    p_logger_Error, p_logger_Debug, time_Sleep_interval in *.

Ltac split_compare :=
  match goal with
  | |- context [Z.leb ?a ?b] => destruct (Z.leb_spec a b)
  | |- context [Z.ltb ?a ?b] => destruct (Z.ltb_spec a b)
  | |- context [Z.gtb ?a ?b] => rewrite (Z.gtb_ltb a b)
  end.

Ltac writes_done :=
  unfold writes; cbn; repeat (rewrite filter_app; cbn);
  rewrite ?app_nil_r, <- ?app_assoc; cbn; reflexivity.

Section MethodFacts.
Context {State B S : Type} {BSI : BlockStore State B} {SSI : Store State S}.

Lemma writes_app (cs ds : list (Call State)) :
  writes (cs ++ ds) = writes cs ++ writes ds.
Proof. unfold writes. apply filter_app. Qed.

Lemma app_one_neq {A : Type} (l : list A) (x : A) : l ++ [x] <> l.
Proof.
  intro H. apply (f_equal (@List.length A)) in H.
  rewrite List.length_app in H. simpl in H. lia.
Qed.

Lemma setter_out_of_range (w : Watermark) (height : int64) (p : Pruner State B S) :
  ~ valid_for w height p ->
  fst (setter w height p) = ErrInvalidHeightValue /\
  wrote_nothing p (snd (setter w height p)).
Proof.
  unfold valid_for, in_block_range, in_abci_range, wrote_nothing.
  intros Hr. destruct w; unfold_methods;
    repeat (split_compare; cbn);
    try (exfalso; lia);
    repeat split; try reflexivity; writes_done.
Qed.

Ltac name_reads p :=
  destruct (GetApplicationRetainHeight (stateStore p)) as [?app ?eapp] eqn:?Eapp;
  destruct (GetCompanionBlockRetainHeight (stateStore p)) as [?dc ?edc] eqn:?Edc;
  destruct (GetABCIResRetainHeight (stateStore p)) as [?abci ?eabci] eqn:?Eabci.

Ltac split_error :=
  match goal with
  | |- context [match ?e with err_nil => _ | _ => _ end] => is_var e; destruct e
  end.

Ltac run_reads :=
  repeat (cbn;
          repeat match goal with
                 | E : _ = (_, _) |- _ => rewrite E
                 end;
          try split_error).

Lemma setter_regression (w : Watermark) (height : int64) (p : Pruner State B S) :
  valid_for w height p ->
  readable (own_reading w p) -> readable (other_reading w p) ->
  regresses w height p ->
  fst (setter w height p) = RetainHeightRegression /\
  wrote_nothing p (snd (setter w height p)).
Proof.
  unfold valid_for, in_block_range, in_abci_range, wrote_nothing, regresses,
    own_reading, other_reading, reading, Get.
  intros Hr. name_reads p. destruct w; unfold_methods.
  all: repeat (split_compare; cbn); try (exfalso; lia).
  all: run_reads.
  all: repeat (split_compare; cbn).
  all: intros Ho Hc Hx; try contradiction; try (exfalso; lia).
  all: repeat split; try reflexivity; writes_done.
Qed.

Ltac split_save :=
  match goal with
  | |- context [SaveApplicationRetainHeight ?h ?s] =>
      destruct (SaveApplicationRetainHeight h s) as [? ?]
  | |- context [SaveCompanionBlockRetainHeight ?h ?s] =>
      destruct (SaveCompanionBlockRetainHeight h s) as [? ?]
  | |- context [SaveABCIResRetainHeight ?h ?s] =>
      destruct (SaveABCIResRetainHeight h s) as [? ?]
  end.

Lemma setter_persists (w : Watermark) (height : int64) (p : Pruner State B S) :
  valid_for w height p ->
  readable (own_reading w p) -> readable (other_reading w p) ->
  ~ regresses w height p ->
  fst (setter w height p) = fst (Save w height (stateStore p)) /\
  persisted w height p (snd (setter w height p)).
Proof.
  unfold valid_for, in_block_range, in_abci_range, persisted, regresses,
    own_reading, other_reading, reading, Get, Save, save_call.
  intros Hr. name_reads p. destruct w; unfold_methods.
  all: repeat (split_compare; cbn); try (exfalso; lia).
  all: run_reads.
  all: repeat (split_compare; cbn).
  all: intros Ho Hc Hx; try contradiction; try (exfalso; lia).
  all: split_save; cbn; repeat split; try reflexivity; writes_done.
Qed.

(** Whatever an in-range call returns is the regression error, the error of
    one of its reads, or the result of its save. *)
Lemma setter_in_range_result (w : Watermark) (height : int64) (p : Pruner State B S) :
  valid_for w height p ->
  fst (setter w height p) = RetainHeightRegression \/
  (exists w', fst (setter w height p) = snd (Get w' (stateStore p))) \/
  fst (setter w height p) = fst (Save w height (stateStore p)).
Proof.
  unfold valid_for, in_block_range, in_abci_range, Save.
  intros Hr. name_reads p. destruct w; unfold_methods.
  all: repeat (split_compare; cbn); try (exfalso; lia).
  all: run_reads.
  all: repeat (split_compare; cbn).
  all: try (left; reflexivity).
  all: try (right; right; split_save; reflexivity).
  all: right; left.
  all: first [ exists Application; cbn; rewrite Eapp; reflexivity
             | exists Companion; cbn; rewrite Edc; reflexivity
             | exists ABCIResults; cbn; rewrite Eabci; reflexivity ].
Qed.

(** *** FindMinRetainHeight *)

Lemma FindMinRetainHeight_wrote_nothing (p : Pruner State B S) :
  wrote_nothing p (snd (FindMinRetainHeight p)).
Proof.
  unfold wrote_nothing. name_reads p. unfold_methods.
  run_reads; repeat (split_compare; cbn);
    repeat split; try reflexivity; writes_done.
Qed.

(** The value depends on the state store alone. *)
Lemma FindMinRetainHeight_same_store (p q : Pruner State B S) :
  stateStore p = stateStore q ->
  fst (FindMinRetainHeight p) = fst (FindMinRetainHeight q).
Proof.
  intros Hs. name_reads q. unfold_methods.
  repeat (cbn; rewrite ?Hs;
          repeat match goal with
                 | E : _ = (_, _) |- _ => rewrite E
                 end;
          try split_error).
  all: repeat (split_compare; cbn); reflexivity.
Qed.

Lemma FindMinRetainHeight_both_set (p : Pruner State B S) (a d : int64) :
  GetApplicationRetainHeight (stateStore p) = (a, err_nil) ->
  GetCompanionBlockRetainHeight (stateStore p) = (d, err_nil) ->
  fst (FindMinRetainHeight p) = Z.min a d.
Proof.
  intros Ha Hd. unfold_methods. cbn. rewrite Ha. cbn. rewrite Hd. cbn.
  split_compare; cbn; lia.
Qed.

Lemma FindMinRetainHeight_application_only (p : Pruner State B S) (a d : int64) :
  GetApplicationRetainHeight (stateStore p) = (a, err_nil) ->
  GetCompanionBlockRetainHeight (stateStore p) = (d, ErrKeyNotFound) ->
  fst (FindMinRetainHeight p) = a.
Proof.
  intros Ha Hd. unfold_methods. cbn. rewrite Ha. cbn. rewrite Hd. reflexivity.
Qed.

(** With the application height unset the function falls through to the
    comparison, with the value that came with [ErrKeyNotFound] in the place
    of the application height. *)
Lemma FindMinRetainHeight_application_unset (p : Pruner State B S)
  (a d : int64) (e : error) :
  GetApplicationRetainHeight (stateStore p) = (a, ErrKeyNotFound) ->
  GetCompanionBlockRetainHeight (stateStore p) = (d, e) ->
  e = err_nil \/ e = ErrKeyNotFound ->
  fst (FindMinRetainHeight p) = Z.min a d.
Proof.
  intros Ha Hd He. unfold_methods. cbn. rewrite Ha. cbn. rewrite Hd.
  destruct He; subst e; cbn; split_compare; cbn; lia.
Qed.

(** *** pruneBlocks *)

Lemma pruneBlocks_nonpositive (height : int64) (p : Pruner State B S) :
  height <= 0 ->
  pruneBlocks height p = ((0%N, 0, InvalidArgument), p).
Proof.
  intros Hh. unfold_methods. split_compare; [reflexivity | lia].
Qed.

Lemma pruneBlocks_load_fails (height : int64) (p : Pruner State B S) :
  0 < height ->
  snd (Load (stateStore p)) <> err_nil ->
  pruneBlocks height p =
  ((0%N, 0, snd (Load (stateStore p))),
   logged (LvlError, "Failed to load state, cannot prune"%string)
     (noted ss_Load (noted bs_Base p))).
Proof.
  intros Hh Hl. unfold_methods. split_compare; [lia |].
  cbn. destruct (Load (stateStore p)) as [st []]; cbn in *;
    try reflexivity; congruence.
Qed.

(** Past the load, both prune steps run, the second with the results of the
    first, and the error returned is the one of the second. *)
Lemma pruneBlocks_runs (height : int64) (p : Pruner State B S)
  (state : State) (pruned : uint64) (ev : int64) (e e' : error) (b' : B) (s' : S) :
  0 < height ->
  Load (stateStore p) = (state, err_nil) ->
  PruneBlocks height state (bs p) = ((pruned, ev, e), b') ->
  PruneStates (Base (bs p)) height ev (stateStore p) = (e', s') ->
  fst (pruneBlocks height p) = (pruned, ev, e') /\
  bs (snd (pruneBlocks height p)) = b' /\
  stateStore (snd (pruneBlocks height p)) = s' /\
  calls (snd (pruneBlocks height p)) =
    calls p ++ [bs_Base; ss_Load; bs_PruneBlocks height state;
                ss_PruneStates (Base (bs p)) height ev].
Proof.
  intros Hh Hl Hb Hs. unfold_methods. split_compare; [lia |].
  cbn. rewrite Hl. cbn. rewrite Hb. cbn.
  destruct e; cbn; rewrite Hs; destruct e'; cbn;
    repeat split; rewrite <- ?app_assoc; reflexivity.
Qed.

(** *** pruningIteration *)

(** The iteration hands back the ABCI cursor it was given. *)
Lemma pruningIteration_abci_cursor
  (lastHeightPruned lastABCIResPrunedHeight : int64) (p : Pruner State B S) :
  snd (fst (pruningIteration lastHeightPruned lastABCIResPrunedHeight p)) =
  lastABCIResPrunedHeight.
Proof.
  unfold pruningIteration, bind, ret.
  repeat match goal with
         | |- context [let (_, _) := ?e in _] => destruct e
         end.
  reflexivity.
Qed.
End MethodFacts.

#[export] Instance MemStore_laws : StoreLaws MemStore.
Proof.
  split.
  - intros w height s. destruct w; cbn; unfold MemStore_save;
      destruct (write_fault s); cbn; intros H; try discriminate H; reflexivity.
  - intros w w' height s Hw. destruct w, w'; try contradiction; cbn;
      unfold MemStore_save; destruct (write_fault s); reflexivity.
Qed.

(** ** The setters *)

Section SetterTheorems.
Context {State B S : Type} {BSI : BlockStore State B} {SSI : Store State S}.

Lemma regresses_dec (w : Watermark) (height : int64) (p : Pruner State B S) :
  regresses w height p \/ ~ regresses w height p.
Proof.
  unfold regresses.
  destruct (own_reading w p), (other_reading w p); cbn; lia.
Qed.

Lemma persisted_not_wrote_nothing (w : Watermark) (height : int64)
  (p p' : Pruner State B S) :
  persisted w height p p' -> ~ wrote_nothing p p'.
Proof.
  intros (_ & _ & Hp) (_ & _ & Hn). rewrite Hn in Hp.
  symmetry in Hp. revert Hp. destruct w; apply app_one_neq.
Qed.

(** Rejection with the regression error and no write happens exactly when
    the height regresses. *)
Lemma setter_rejects_iff (w : Watermark) (height : int64) (p : Pruner State B S) :
  valid_for w height p ->
  readable (own_reading w p) -> readable (other_reading w p) ->
  (fst (setter w height p) = RetainHeightRegression /\
   wrote_nothing p (snd (setter w height p)))
  <-> regresses w height p.
Proof.
  intros Hv Ho Hc. split.
  - intros [_ Hn]. destruct (regresses_dec w height p) as [Hx | Hx]; [exact Hx |].
    destruct (setter_persists w height p Hv Ho Hc Hx) as [_ Hp].
    exfalso. exact (persisted_not_wrote_nothing _ _ _ _ Hp Hn).
  - apply setter_regression; assumption.
Qed.

(** C2. For [SetApplicationRetainHeight] and [SetCompanionRetainHeight] called
    with an in-range height, when both watermark reads answer with a height
    or with not-found: the call fails with [RetainHeightRegression] and
    writes nothing exactly when the stakeholder's own current height (an
    unset one counting as the requested height) or the other stakeholder's
    current height (an unset one being no constraint) exceeds the requested
    height; otherwise the requested height is saved.  In particular, with the
    application height at 50, [SetCompanionRetainHeight 30] fails with
    [RetainHeightRegression]. *)
Theorem setters_reject_exactly_on_regression
  (p : Pruner State B S) (height : int64) :
  in_block_range height p ->
  readable (reading (GetApplicationRetainHeight (stateStore p))) ->
  readable (reading (GetCompanionBlockRetainHeight (stateStore p))) ->
  let app := reading (GetApplicationRetainHeight (stateStore p)) in
  let dc := reading (GetCompanionBlockRetainHeight (stateStore p)) in
  ((fst (SetApplicationRetainHeight height p) = RetainHeightRegression /\
    wrote_nothing p (snd (SetApplicationRetainHeight height p)))
   <-> (height < own_current height app \/ other_exceeds height dc)) /\
  (~ (height < own_current height app \/ other_exceeds height dc) ->
   fst (SetApplicationRetainHeight height p) =
     fst (SaveApplicationRetainHeight height (stateStore p)) /\
   persisted Application height p (snd (SetApplicationRetainHeight height p))) /\
  ((fst (SetCompanionRetainHeight height p) = RetainHeightRegression /\
    wrote_nothing p (snd (SetCompanionRetainHeight height p)))
   <-> (height < own_current height dc \/ other_exceeds height app)) /\
  (~ (height < own_current height dc \/ other_exceeds height app) ->
   fst (SetCompanionRetainHeight height p) =
     fst (SaveCompanionBlockRetainHeight height (stateStore p)) /\
   persisted Companion height p (snd (SetCompanionRetainHeight height p))) /\
  (height = 30 ->
   GetApplicationRetainHeight (stateStore p) = (50, err_nil) ->
   fst (SetCompanionRetainHeight height p) = RetainHeightRegression).
Proof.
  intros Hr Ha Hd app dc.
  split; [| split; [| split; [| split]]].
  - exact (setter_rejects_iff Application height p Hr Ha Hd).
  - exact (setter_persists Application height p Hr Ha Hd).
  - exact (setter_rejects_iff Companion height p Hr Hd Ha).
  - exact (setter_persists Companion height p Hr Hd Ha).
  - intros Hh Happ.
    apply (setter_regression Companion height p Hr Hd Ha).
    right. unfold other_reading, reading, Get. rewrite Happ. cbn. lia.
Qed.

(** C5. When the state store does not itself answer with
    [ErrInvalidHeightValue]: [SetApplicationRetainHeight] and
    [SetCompanionRetainHeight] fail with [ErrInvalidHeightValue] exactly when
    the height violates [0 < height], [Base <= height] or
    [height <= Height]; [SetABCIResRetainHeight] fails with it exactly when
    the height violates [0 < height <= Height], the base playing no part. *)
Theorem setters_invalid_height_exactly_out_of_range
  (p : Pruner State B S) (height : int64) :
  no_range_error_from (stateStore p) ->
  (fst (SetApplicationRetainHeight height p) = ErrInvalidHeightValue
   <-> ~ (0 < height /\ Base (bs p) <= height /\ height <= Height (bs p))) /\
  (fst (SetCompanionRetainHeight height p) = ErrInvalidHeightValue
   <-> ~ (0 < height /\ Base (bs p) <= height /\ height <= Height (bs p))) /\
  (fst (SetABCIResRetainHeight height p) = ErrInvalidHeightValue
   <-> ~ (0 < height /\ height <= Height (bs p))).
Proof.
  intros [Hg Hs].
  assert (Hall : forall w, fst (setter w height p) = ErrInvalidHeightValue
                           <-> ~ valid_for w height p).
  { intros w. split.
    - intros He Hv.
      destruct (setter_in_range_result w height p Hv) as [H | [[w' H] | H]];
        rewrite H in He.
      + discriminate He.
      + exact (Hg w' He).
      + exact (Hs w height He).
    - intros Hv. apply setter_out_of_range. exact Hv. }
  split; [| split].
  - exact (Hall Application).
  - exact (Hall Companion).
  - exact (Hall ABCIResults).
Qed.

(** C7, as amended.  For the application setter and, symmetrically, the
    companion setter, called with an in-range height [H] while the
    stakeholder's own watermark is unset or at most [H] and the other
    stakeholder's watermark is set to [H']: the call fails with
    [RetainHeightRegression] and writes nothing when [H < H'], and saves [H],
    succeeding when the save does, when [H' <= H]. *)
Theorem setter_cross_stakeholder_check
  (w : Watermark) (p : Pruner State B S) (H H' : int64) :
  valid_for w H p ->
  at_most H (own_reading w p) ->
  other_reading w p = Found H' ->
  (H < H' ->
   fst (setter w H p) = RetainHeightRegression /\
   wrote_nothing p (snd (setter w H p))) /\
  (H' <= H ->
   fst (Save w H (stateStore p)) = err_nil ->
   fst (setter w H p) = err_nil /\
   persisted w H p (snd (setter w H p))).
Proof.
  intros Hv Ho Hc.
  assert (Hro : readable (own_reading w p))
    by (destruct (own_reading w p); cbn in *; tauto).
  assert (Hrc : readable (other_reading w p)) by (rewrite Hc; exact I).
  split.
  - intros Hlt. apply setter_regression; try assumption.
    right. rewrite Hc. exact Hlt.
  - intros Hle Hs.
    destruct (setter_persists w H p Hv Hro Hrc) as [He Hp].
    + unfold regresses. rewrite Hc.
      destruct (own_reading w p); cbn in *; lia.
    + split; [congruence | exact Hp].
Qed.
End SetterTheorems.

Section SetterSequences.
Context {State B S : Type} {BSI : BlockStore State B} {SSI : Store State S}.
Context {laws : StoreLaws S}.

Lemma valid_for_same_bs (w : Watermark) (height : int64) (p p' : Pruner State B S) :
  bs p' = bs p -> valid_for w height p -> valid_for w height p'.
Proof.
  unfold valid_for, in_block_range, in_abci_range.
  intros Hb. rewrite Hb. tauto.
Qed.

Lemma at_most_readable (height : int64) (r : Reading) :
  at_most height r -> readable r.
Proof. destruct r; cbn; tauto. Qed.

Lemma at_most_not_regresses (w : Watermark) (height : int64) (p : Pruner State B S) :
  at_most height (own_reading w p) -> at_most height (other_reading w p) ->
  ~ regresses w height p.
Proof.
  unfold regresses.
  destruct (own_reading w p), (other_reading w p); cbn; lia.
Qed.

(** An accepted call whose save succeeds: what the next call will read. *)
Lemma setter_accepted (w : Watermark) (height : int64) (p : Pruner State B S) :
  valid_for w height p ->
  at_most height (own_reading w p) -> at_most height (other_reading w p) ->
  fst (Save w height (stateStore p)) = err_nil ->
  fst (setter w height p) = err_nil /\
  bs (snd (setter w height p)) = bs p /\
  own_reading w (snd (setter w height p)) = Found height /\
  other_reading w (snd (setter w height p)) = other_reading w p.
Proof.
  intros Hv Ho Hc Hs.
  destruct (setter_persists w height p Hv (at_most_readable _ _ Ho)
              (at_most_readable _ _ Hc) (at_most_not_regresses _ _ _ Ho Hc))
    as [He (Hb & Hst & _)].
  split; [congruence |]. split; [exact Hb |]. split.
  - unfold own_reading. rewrite Hst, (get_after_save w height _ Hs). reflexivity.
  - unfold other_reading. rewrite Hst.
    destruct w; try reflexivity;
      rewrite get_other_after_save by discriminate; reflexivity.
Qed.

(** C6, as amended.  For each of the three watermarks, with in-range heights
    [H1 <= H2], starting where the watermark (and, for a block-related one,
    the other stakeholder's) is unset or at most [H1], and with the saves
    succeeding: setting [H1] then [H2] succeeds both times; and when
    [H1 < H2], setting [H2] then [H1] succeeds the first time and fails with
    [RetainHeightRegression] the second time. *)
Theorem setter_monotone_sequence
  (w : Watermark) (p : Pruner State B S) (H1 H2 : int64) :
  valid_for w H1 p -> valid_for w H2 p ->
  H1 <= H2 ->
  at_most H1 (own_reading w p) -> at_most H1 (other_reading w p) ->
  fst (Save w H1 (stateStore p)) = err_nil ->
  fst (Save w H2 (snd (Save w H1 (stateStore p)))) = err_nil ->
  fst (Save w H2 (stateStore p)) = err_nil ->
  (fst (setter w H1 p) = err_nil /\
   fst (setter w H2 (snd (setter w H1 p))) = err_nil) /\
  (H1 < H2 ->
   fst (setter w H2 p) = err_nil /\
   fst (setter w H1 (snd (setter w H2 p))) = RetainHeightRegression).
Proof.
  intros Hv1 Hv2 Hle Ho Hc Hs1 Hs12 Hs2.
  assert (Hup : forall r, at_most H1 r -> at_most H2 r)
    by (intros r; destruct r; cbn; lia).
  split.
  - destruct (setter_accepted w H1 p Hv1 Ho Hc Hs1) as (He & Hb & Hown & Hoth).
    split; [exact He |].
    destruct (setter_persists w H1 p Hv1 (at_most_readable _ _ Ho)
                (at_most_readable _ _ Hc) (at_most_not_regresses _ _ _ Ho Hc))
      as [_ (_ & Hst & _)].
    apply (setter_accepted w H2 (snd (setter w H1 p))).
    + exact (valid_for_same_bs w H2 p _ Hb Hv2).
    + rewrite Hown. cbn. exact Hle.
    + rewrite Hoth. exact (Hup _ Hc).
    + rewrite Hst. exact Hs12.
  - intros Hlt.
    destruct (setter_accepted w H2 p Hv2 (Hup _ Ho) (Hup _ Hc) Hs2)
      as (He & Hb & Hown & Hoth).
    split; [exact He |].
    apply setter_regression.
    + exact (valid_for_same_bs w H1 p _ Hb Hv1).
    + rewrite Hown. exact I.
    + rewrite Hoth. exact (at_most_readable _ _ Hc).
    + left. rewrite Hown. cbn. exact Hlt.
Qed.
End SetterSequences.

(** ** The resolver and the prune executor *)

Section ExecutorTheorems.
Context {State B S : Type} {BSI : BlockStore State B} {SSI : Store State S}.

(** C9. [FindMinRetainHeight] writes nothing: both collaborators are left as
    they were and no writing call is made; and a second call made right
    after the first returns the same value. *)
Theorem FindMinRetainHeight_reads_only (p : Pruner State B S) :
  wrote_nothing p (snd (FindMinRetainHeight p)) /\
  fst (FindMinRetainHeight (snd (FindMinRetainHeight p))) =
  fst (FindMinRetainHeight p).
Proof.
  pose proof (FindMinRetainHeight_wrote_nothing p) as Hn.
  split; [exact Hn |].
  apply FindMinRetainHeight_same_store.
  destruct Hn as (_ & Hs & _). exact Hs.
Qed.

(** C8. [pruneBlocks] with [height <= 0] fails at once with the
    invalid-argument error and leaves the pruner, both stores included, as it
    was, no call having been made; with [0 < height] and a failing [Load] it
    returns the error of [Load] with zero results, having only read the base
    of the ledger and called [Load]: neither [PruneBlocks] nor [PruneStates]
    is called and both stores are as they were. *)
Theorem pruneBlocks_aborts_before_pruning (p : Pruner State B S) (height : int64) :
  (height <= 0 ->
   pruneBlocks height p = ((0%N, 0, InvalidArgument), p)) /\
  (0 < height ->
   snd (Load (stateStore p)) <> err_nil ->
   fst (pruneBlocks height p) = (0%N, 0, snd (Load (stateStore p))) /\
   bs (snd (pruneBlocks height p)) = bs p /\
   stateStore (snd (pruneBlocks height p)) = stateStore p /\
   calls (snd (pruneBlocks height p)) = calls p ++ [bs_Base; ss_Load]).
Proof.
  split.
  - apply pruneBlocks_nonpositive.
  - intros Hh Hl. rewrite (pruneBlocks_load_fails height p Hh Hl). cbn.
    repeat split. rewrite <- app_assoc. reflexivity.
Qed.

(** C10, as amended.  In [pruneBlocks], with [0 < height] and a successful
    [Load], when the ledger's [PruneBlocks] fails, the failure is logged at
    error level and the state store's [PruneStates] is still called: it is
    given the base read beforehand, the height, and the evidence retain
    height exactly as the failed ledger call returned it, whatever that value
    is.  The ledger and the state store end as the two calls left them, and
    [pruneBlocks] returns the count and the evidence retain height of the
    failed call with the error of [PruneStates]. *)
Theorem pruneBlocks_forwards_floor_of_failed_ledger_prune
  (p : Pruner State B S) (height : int64)
  (state : State) (pruned : uint64) (ev : int64) (e : error) (b' : B) :
  0 < height ->
  Load (stateStore p) = (state, err_nil) ->
  PruneBlocks height state (bs p) = ((pruned, ev, e), b') ->
  e <> err_nil ->
  calls (snd (pruneBlocks height p)) =
    calls p ++ [bs_Base; ss_Load; bs_PruneBlocks height state;
                ss_PruneStates (Base (bs p)) height ev] /\
  bs (snd (pruneBlocks height p)) = b' /\
  stateStore (snd (pruneBlocks height p)) =
    snd (PruneStates (Base (bs p)) height ev (stateStore p)) /\
  fst (pruneBlocks height p) =
    (pruned, ev, fst (PruneStates (Base (bs p)) height ev (stateStore p))) /\
  logger (snd (pruneBlocks height p)) =
    logger p
    ++ [(LvlError, "Failed to prune blocks at height"%string)]
    ++ match fst (PruneStates (Base (bs p)) height ev (stateStore p)) with
       | err_nil => []
       | _ => [(LvlError, "Failed to prune the state store"%string)]
       end.
Proof.
  intros Hh Hl Hb He. unfold_methods. split_compare; [lia |].
  cbn. rewrite Hl. cbn. rewrite Hb. cbn.
  destruct (PruneStates (Base (bs p)) height ev (stateStore p)) as [e' s'] eqn:Hs.
  destruct e; try contradiction; cbn; rewrite Hs; destruct e'; cbn;
    rewrite <- ?app_assoc; repeat split; reflexivity.
Qed.
End ExecutorTheorems.

(** ** Runs on the in-memory stores *)

(** C1, at the input where the code departs from it.  With the application
    height unset and the companion height set to 7, [FindMinRetainHeight]
    returns 0: the unset application height reaches the final comparison as
    the zero value and wins it.  The other four cases of the claim hold. *)
Theorem FindMinRetainHeight_companion_only_returns_zero :
  GetApplicationRetainHeight (stateStore companion_only_7) = (0, ErrKeyNotFound) /\
  GetCompanionBlockRetainHeight (stateStore companion_only_7) = (7, err_nil) /\
  fst (FindMinRetainHeight companion_only_7) = 0 /\
  fst (FindMinRetainHeight companion_only_7) <> 7 /\
  fst (FindMinRetainHeight fresh) = 0 /\
  fst (FindMinRetainHeight
         (idle_pruner (store (Stored 5) Unset Unset) (ledger 1 100) : MemPruner)) = 5 /\
  fst (FindMinRetainHeight
         (idle_pruner (store (Stored 5) (Stored 7) Unset) (ledger 1 100) : MemPruner)) = 5 /\
  fst (FindMinRetainHeight
         (idle_pruner (store (Stored 7) (Stored 5) Unset) (ledger 1 100) : MemPruner)) = 5.
Proof.
  repeat split; try reflexivity. vm_compute. discriminate.
Qed.

(** C3, at the input where the code departs from it.  The ledger prune
    fails, the state-store prune is still called and succeeds, and the error
    [pruneBlocks] returns is nil: the ledger's error was logged and then
    overwritten by the result of [PruneStates]. *)
Theorem pruneBlocks_drops_ledger_error :
  snd (fst (PruneBlocks 5 tt (bs (ledger_prune_fails 0)))) = ErrExternal 1 /\
  fst (pruneBlocks 5 (ledger_prune_fails 0)) = (0%N, 0, err_nil) /\
  calls (snd (pruneBlocks 5 (ledger_prune_fails 0))) =
    [bs_Base; ss_Load; bs_PruneBlocks 5 tt; ss_PruneStates 1 5 0] /\
  logger (snd (pruneBlocks 5 (ledger_prune_fails 0))) =
    [(LvlError, "Failed to prune blocks at height"%string)].
Proof.
  repeat split; reflexivity.
Qed.

(** C4, at the input where the code departs from it.  With the ABCI-results
    height at 5 the first iteration reads 5, which differs from the cursor 0,
    and calls [PruneABCIResponses 5]; the cursor it ends with is still 0, so
    the second iteration, reading the same height 5, prunes for it again. *)
Theorem pruningRoutine_reprunes_unchanged_abci_height :
  GetABCIResRetainHeight (stateStore abci_at_5) = (5, err_nil) /\
  snd (fst (pruningIteration 0 0 abci_at_5)) = 0 /\
  calls (snd (pruningIteration 0 0 abci_at_5)) =
    [ss_GetApplicationRetainHeight; ss_GetCompanionBlockRetainHeight;
     ss_GetABCIResRetainHeight; ss_PruneABCIResponses 5; time_Sleep] /\
  GetABCIResRetainHeight (stateStore (snd (pruningIteration 0 0 abci_at_5)))
    = (5, err_nil) /\
  fst (pruningRoutine [false; false] abci_at_5) = (0, 0) /\
  calls (snd (pruningRoutine [false; false] abci_at_5)) =
    [ss_GetApplicationRetainHeight; ss_GetCompanionBlockRetainHeight;
     ss_GetABCIResRetainHeight; ss_PruneABCIResponses 5; time_Sleep;
     ss_GetApplicationRetainHeight; ss_GetCompanionBlockRetainHeight;
     ss_GetABCIResRetainHeight; ss_PruneABCIResponses 5; time_Sleep].
Proof.
  repeat split; reflexivity.
Qed.

(** Counterexample to C6 as stated: 5 <= 5 are both in range, and after the
    application height was set to 5, setting it to 5 again succeeds instead
    of failing with [RetainHeightRegression]. *)
Lemma same_height_twice_accepted :
  5 <= 5 /\ in_block_range 5 fresh /\
  fst (SetApplicationRetainHeight 5 fresh) = err_nil /\
  fst (SetApplicationRetainHeight 5 (snd (SetApplicationRetainHeight 5 fresh)))
    = err_nil /\
  fst (SetApplicationRetainHeight 5 (snd (SetApplicationRetainHeight 5 fresh)))
    <> RetainHeightRegression.
Proof.
  unfold in_block_range. cbn.
  repeat split; try reflexivity; try lia; try discriminate.
Qed.

(** Counterexample to C7 as stated: with the companion height at 3 < 5 the
    application setter accepts 5 and saves it; with the companion height at
    7 >= 5 it rejects 5. *)
Lemma setter_accepts_above_other_stakeholder :
  (in_block_range 5 companion_at_3 /\
   GetCompanionBlockRetainHeight (stateStore companion_at_3) = (3, err_nil) /\
   3 < 5 /\
   fst (SetApplicationRetainHeight 5 companion_at_3) = err_nil /\
   GetApplicationRetainHeight
     (stateStore (snd (SetApplicationRetainHeight 5 companion_at_3)))
     = (5, err_nil)) /\
  (in_block_range 5 companion_at_7 /\
   GetCompanionBlockRetainHeight (stateStore companion_at_7) = (7, err_nil) /\
   7 >= 5 /\
   fst (SetApplicationRetainHeight 5 companion_at_7) = RetainHeightRegression).
Proof.
  unfold in_block_range. cbn.
  repeat split; try reflexivity; try lia; try discriminate.
Qed.

(** Counterexample to C10 as stated: a ledger whose failed [PruneBlocks]
    gives back -1 as its evidence retain height.  The call fails,
    [PruneStates] is still called, and the evidence retain height it receives
    is -1; no call of [PruneStates] with 0 is made. *)
Lemma failed_ledger_floor_is_not_always_zero :
  snd (fst (PruneBlocks 5 tt (bs (ledger_prune_fails (-1))))) <> err_nil /\
  calls (snd (pruneBlocks 5 (ledger_prune_fails (-1)))) =
    [bs_Base; ss_Load; bs_PruneBlocks 5 tt; ss_PruneStates 1 5 (-1)] /\
  ~ In (ss_PruneStates 1 5 0)
       (calls (snd (pruneBlocks 5 (ledger_prune_fails (-1))))).
Proof.
  split; [cbn; discriminate |]. split; [reflexivity |].
  cbn. intros [H | [H | [H | [H | []]]]]; discriminate H.
Qed.

(** ** The general statements at concrete inputs *)

(** The statement of C2 at [application_at_50] and height 30. *)
Lemma setters_reject_exactly_on_regression_witness :
  in_block_range 30 application_at_50 /\
  readable (reading (GetApplicationRetainHeight (stateStore application_at_50))) /\
  readable (reading (GetCompanionBlockRetainHeight (stateStore application_at_50))) /\
  fst (SetCompanionRetainHeight 30 application_at_50) = RetainHeightRegression.
Proof.
  assert (Hr : in_block_range 30 application_at_50)
    by (unfold in_block_range; cbn; lia).
  assert (Ha : readable (reading (GetApplicationRetainHeight
                                    (stateStore application_at_50))))
    by exact I.
  assert (Hd : readable (reading (GetCompanionBlockRetainHeight
                                    (stateStore application_at_50))))
    by exact I.
  split; [exact Hr |]. split; [exact Ha |]. split; [exact Hd |].
  destruct (setters_reject_exactly_on_regression application_at_50 30 Hr Ha Hd)
    as (_ & _ & _ & _ & H).
  apply H; reflexivity.
Defined.

(** The statement of C5 at [base_at_5]: 11 is above the ledger height 10, and
    3, below the base 5, is refused by the application setter and is no
    range error for the ABCI-results setter. *)
Lemma setters_invalid_height_exactly_out_of_range_witness :
  no_range_error_from (stateStore base_at_5) /\
  fst (SetApplicationRetainHeight 11 base_at_5) = ErrInvalidHeightValue /\
  fst (SetApplicationRetainHeight 3 base_at_5) = ErrInvalidHeightValue /\
  fst (SetABCIResRetainHeight 3 base_at_5) <> ErrInvalidHeightValue.
Proof.
  assert (Hs : no_range_error_from (stateStore base_at_5)).
  { split.
    - intros w; destruct w; cbn; discriminate.
    - intros w height; destruct w; cbn; discriminate. }
  split; [exact Hs |].
  destruct (setters_invalid_height_exactly_out_of_range base_at_5 11 Hs)
    as ([_ Happ11] & _ & _).
  destruct (setters_invalid_height_exactly_out_of_range base_at_5 3 Hs)
    as ([_ Happ3] & _ & [Habci _]).
  split; [| split].
  - apply Happ11. cbn. lia.
  - apply Happ3. cbn. lia.
  - intros He. apply (Habci He). cbn. lia.
Defined.

(** The statement of C6, as amended, at [fresh] with heights 3 and 5. *)
Lemma setter_monotone_sequence_witness :
  valid_for Application 3 fresh /\ valid_for Application 5 fresh /\ 3 <= 5 /\
  at_most 3 (own_reading Application fresh) /\
  at_most 3 (other_reading Application fresh) /\
  (fst (SetApplicationRetainHeight 3 fresh) = err_nil /\
   fst (SetApplicationRetainHeight 5 (snd (SetApplicationRetainHeight 3 fresh)))
     = err_nil) /\
  (fst (SetApplicationRetainHeight 5 fresh) = err_nil /\
   fst (SetApplicationRetainHeight 3 (snd (SetApplicationRetainHeight 5 fresh)))
     = RetainHeightRegression).
Proof.
  assert (Hv3 : valid_for Application 3 fresh)
    by (unfold valid_for, in_block_range; cbn; lia).
  assert (Hv5 : valid_for Application 5 fresh)
    by (unfold valid_for, in_block_range; cbn; lia).
  assert (Hle : 3 <= 5) by lia.
  assert (Ho : at_most 3 (own_reading Application fresh)) by exact I.
  assert (Hc : at_most 3 (other_reading Application fresh)) by exact I.
  assert (Hs1 : fst (Save Application 3 (stateStore fresh)) = err_nil)
    by reflexivity.
  assert (Hs12 : fst (Save Application 5
                        (snd (Save Application 3 (stateStore fresh)))) = err_nil)
    by reflexivity.
  assert (Hs2 : fst (Save Application 5 (stateStore fresh)) = err_nil)
    by reflexivity.
  destruct (setter_monotone_sequence Application fresh 3 5 Hv3 Hv5 Hle Ho Hc
              Hs1 Hs12 Hs2) as [Hup Hdown].
  repeat (split; [first [exact Hv3 | exact Hv5 | exact Hle | exact I] |]).
  split; [exact Hup |]. apply Hdown. lia.
Defined.

(** The statement of C7, as amended, at [companion_at_7] and at
    [companion_at_3], both with height 5. *)
Lemma setter_cross_stakeholder_check_witness :
  valid_for Application 5 companion_at_7 /\
  at_most 5 (own_reading Application companion_at_7) /\
  other_reading Application companion_at_7 = Found 7 /\
  fst (SetApplicationRetainHeight 5 companion_at_7) = RetainHeightRegression /\
  valid_for Application 5 companion_at_3 /\
  at_most 5 (own_reading Application companion_at_3) /\
  other_reading Application companion_at_3 = Found 3 /\
  fst (SetApplicationRetainHeight 5 companion_at_3) = err_nil.
Proof.
  assert (Hv7 : valid_for Application 5 companion_at_7)
    by (unfold valid_for, in_block_range; cbn; lia).
  assert (Hv3 : valid_for Application 5 companion_at_3)
    by (unfold valid_for, in_block_range; cbn; lia).
  assert (Ho7 : at_most 5 (own_reading Application companion_at_7)) by exact I.
  assert (Ho3 : at_most 5 (own_reading Application companion_at_3)) by exact I.
  assert (Hc7 : other_reading Application companion_at_7 = Found 7)
    by reflexivity.
  assert (Hc3 : other_reading Application companion_at_3 = Found 3)
    by reflexivity.
  destruct (setter_cross_stakeholder_check Application companion_at_7 5 7
              Hv7 Ho7 Hc7) as [Hreject _].
  destruct (setter_cross_stakeholder_check Application companion_at_3 5 3
              Hv3 Ho3 Hc3) as [_ Haccept].
  split; [exact Hv7 |]. split; [exact I |]. split; [reflexivity |].
  split; [apply Hreject; lia |].
  split; [exact Hv3 |]. split; [exact I |]. split; [reflexivity |].
  apply Haccept; [lia | reflexivity].
Defined.

(** The statement of C8 at [load_fails], with heights 0 and 5. *)
Lemma pruneBlocks_aborts_before_pruning_witness :
  (0 <= 0 /\ pruneBlocks 0 load_fails = ((0%N, 0, InvalidArgument), load_fails)) /\
  (0 < 5 /\ snd (Load (stateStore load_fails)) <> err_nil /\
   fst (pruneBlocks 5 load_fails) = (0%N, 0, ErrExternal 2) /\
   calls (snd (pruneBlocks 5 load_fails)) = [bs_Base; ss_Load]).
Proof.
  assert (H0 : 0 <= 0) by lia.
  assert (H5 : 0 < 5) by lia.
  assert (Hl : snd (Load (stateStore load_fails)) <> err_nil)
    by (cbn; discriminate).
  destruct (pruneBlocks_aborts_before_pruning load_fails 0) as [Hzero _].
  destruct (pruneBlocks_aborts_before_pruning load_fails 5) as [_ Hload].
  destruct (Hload H5 Hl) as (Hres & _ & _ & Hcalls).
  split; [split; [exact H0 | exact (Hzero H0)] |].
  split; [exact H5 |]. split; [exact Hl |].
  split; [exact Hres | exact Hcalls].
Defined.

(** The statement of C10, as amended, at [ledger_prune_fails 0] and height
    5: a failed call that gives back 0 has 0 forwarded. *)
Lemma pruneBlocks_forwards_floor_of_failed_ledger_prune_witness :
  0 < 5 /\
  Load (stateStore (ledger_prune_fails 0)) = (tt, err_nil) /\
  PruneBlocks 5 tt (bs (ledger_prune_fails 0)) =
    ((0%N, 0, ErrExternal 1), bs (ledger_prune_fails 0)) /\
  ErrExternal 1 <> err_nil /\
  calls (snd (pruneBlocks 5 (ledger_prune_fails 0))) =
    [bs_Base; ss_Load; bs_PruneBlocks 5 tt; ss_PruneStates 1 5 0] /\
  fst (pruneBlocks 5 (ledger_prune_fails 0)) = (0%N, 0, err_nil) /\
  logger (snd (pruneBlocks 5 (ledger_prune_fails 0))) =
    [(LvlError, "Failed to prune blocks at height"%string)].
Proof.
  assert (H5 : 0 < 5) by lia.
  assert (He : ErrExternal 1 <> err_nil) by discriminate.
  assert (Hl : Load (stateStore (ledger_prune_fails 0)) = (tt, err_nil))
    by reflexivity.
  assert (Hb : PruneBlocks 5 tt (bs (ledger_prune_fails 0)) =
               ((0%N, 0, ErrExternal 1), bs (ledger_prune_fails 0)))
    by reflexivity.
  destruct (pruneBlocks_forwards_floor_of_failed_ledger_prune
              (ledger_prune_fails 0) 5 tt 0%N 0
              (ErrExternal 1) (bs (ledger_prune_fails 0)) H5 Hl Hb He)
    as (Hc & _ & _ & Hr & Hlog).
  split; [exact H5 |]. split; [exact Hl |]. split; [exact Hb |].
  split; [exact He |]. split; [exact Hc |]. split; [exact Hr | exact Hlog].
Defined.

(** * Further properties of the methods *)

Ltac name_replies p :=
  destruct (GetApplicationRetainHeight (stateStore p)) as [?app ?eapp] eqn:?Eapp;
  destruct (GetCompanionBlockRetainHeight (stateStore p)) as [?dc ?edc] eqn:?Edc;
  destruct (GetABCIResRetainHeight (stateStore p)) as [?abci ?eabci] eqn:?Eabci.

Ltac step_error :=
  match goal with
  | |- context [match ?e with err_nil => _ | _ => _ end] => is_var e; destruct e
  end.

Ltac step_reads :=
  repeat (cbn;
          repeat match goal with
                 | E : _ = (_, _) |- _ => rewrite E
                 end;
          try step_error).

Ltac step_save :=
  match goal with
  | |- context [SaveApplicationRetainHeight ?h ?s] =>
      destruct (SaveApplicationRetainHeight h s) as [? ?]
  | |- context [SaveCompanionBlockRetainHeight ?h ?s] =>
      destruct (SaveCompanionBlockRetainHeight h s) as [? ?]
  | |- context [SaveABCIResRetainHeight ?h ?s] =>
      destruct (SaveABCIResRetainHeight h s) as [? ?]
  end.

Section SetterEdges.
Context {State B S : Type} {BSI : BlockStore State B} {SSI : Store State S}.

(** X1. A read that fails with an error other than [ErrKeyNotFound] ends the
    call: the setter returns that error as it is and writes nothing, whether
    the failing read is the one of the stakeholder's own watermark or, that
    one having answered, the one of the other stakeholder's watermark. *)
Theorem setter_returns_read_error
  (w : Watermark) (height : int64) (p : Pruner State B S) (e : error) :
  valid_for w height p ->
  own_reading w p = ReadFailed e \/
  (readable (own_reading w p) /\ other_reading w p = ReadFailed e) ->
  fst (setter w height p) = e /\
  wrote_nothing p (snd (setter w height p)).
Proof.
  unfold valid_for, in_block_range, in_abci_range, wrote_nothing,
    own_reading, other_reading, reading, Get.
  intros Hr. name_replies p. destruct w; unfold_methods.
  all: repeat (split_compare; cbn); try (exfalso; lia).
  all: step_reads.
  all: intros [Ho | [Ho Hc]]; try discriminate; try contradiction.
  all: try (injection Ho as <-); try (injection Hc as <-).
  all: repeat (split_compare; cbn).
  all: repeat split; try reflexivity; writes_done.
Qed.

(** X2. Whatever the height and the state of the stores, a setter either
    writes nothing or saves the requested height under its own watermark and
    writes nothing else; it never touches the ledger and never logs. *)
Theorem setter_writes_at_most_its_watermark
  (w : Watermark) (height : int64) (p : Pruner State B S) :
  (wrote_nothing p (snd (setter w height p)) \/
   persisted w height p (snd (setter w height p))) /\
  logger (snd (setter w height p)) = logger p /\
  interval (snd (setter w height p)) = interval p.
Proof.
  unfold wrote_nothing, persisted, Save, save_call.
  name_replies p. destruct w; unfold_methods.
  all: repeat (split_compare; cbn).
  all: step_reads.
  all: repeat (split_compare; cbn).
  all: try step_save; cbn.
  all: split; [| split; reflexivity].
  all: first [ left; repeat split; try reflexivity; writes_done
             | right; repeat split; try reflexivity; writes_done ].
Qed.

(** X3. The range check comes first.  With [height <= 0] a setter returns
    [ErrInvalidHeightValue] without a single call; with any other
    out-of-range height it returns it after consulting the ledger only: the
    calls it made are [Base] and [Height], and the state store was neither
    read nor written. *)
Theorem setter_checks_range_before_state_store
  (w : Watermark) (height : int64) (p : Pruner State B S) :
  (height <= 0 -> setter w height p = (ErrInvalidHeightValue, p)) /\
  (~ valid_for w height p ->
   fst (setter w height p) = ErrInvalidHeightValue /\
   stateStore (snd (setter w height p)) = stateStore p /\
   exists cs,
     calls (snd (setter w height p)) = calls p ++ cs /\
     Forall (fun c => c = bs_Base \/ c = bs_Height) cs).
Proof.
  unfold valid_for, in_block_range, in_abci_range. split.
  - intros Hh. destruct w; unfold_methods;
      split_compare; try lia; reflexivity.
  - intros Hr. destruct w; unfold_methods;
      repeat (split_compare; cbn); try (exfalso; lia);
      (split; [reflexivity |]); (split; [reflexivity |]).
    all: first [ exists []; rewrite app_nil_r; split; [reflexivity |]
               | exists [bs_Base]; split; [reflexivity |]
               | exists [bs_Height]; split; [reflexivity |]
               | exists [bs_Base; bs_Height];
                 split; [rewrite <- app_assoc; reflexivity |] ].
    all: repeat (apply Forall_cons; [auto |]); apply Forall_nil.
Qed.

(** X4. [SetABCIResRetainHeight] with a height in [0 < height <= Height] and
    a read of the ABCI-results height that answers with a height or with
    not-found: the call fails with [RetainHeightRegression] and writes nothing
    exactly when the stored height exceeds the requested one; otherwise the
    requested height is saved.  Neither the base of the ledger nor the two
    block-related heights play a part. *)
Theorem SetABCIResRetainHeight_rejects_exactly_on_regression
  (p : Pruner State B S) (height : int64) :
  in_abci_range height p ->
  readable (reading (GetABCIResRetainHeight (stateStore p))) ->
  ((fst (SetABCIResRetainHeight height p) = RetainHeightRegression /\
    wrote_nothing p (snd (SetABCIResRetainHeight height p)))
   <-> exists v, reading (GetABCIResRetainHeight (stateStore p)) = Found v /\
                 height < v) /\
  ((forall v, reading (GetABCIResRetainHeight (stateStore p)) = Found v ->
              v <= height) ->
   fst (SetABCIResRetainHeight height p) =
     fst (SaveABCIResRetainHeight height (stateStore p)) /\
   persisted ABCIResults height p (snd (SetABCIResRetainHeight height p))).
Proof.
  intros Hr Ha.
  assert (Hreg : regresses ABCIResults height p <->
                 exists v, reading (GetABCIResRetainHeight (stateStore p)) = Found v
                           /\ height < v).
  { unfold regresses, own_reading, other_reading. cbn.
    destruct (reading (GetABCIResRetainHeight (stateStore p))); cbn.
    - split.
      + intros [H | []]. exists height0. split; [reflexivity | exact H].
      + intros (v & Hv & Hlt). injection Hv as <-. left. exact Hlt.
    - split; [intros [H | []]; lia | intros (v & Hv & _); discriminate Hv].
    - split; [intros [H | []]; lia | intros (v & Hv & _); discriminate Hv]. }
  split.
  - rewrite <- Hreg.
    exact (setter_rejects_iff ABCIResults height p Hr Ha I).
  - intros Hle.
    apply (setter_persists ABCIResults height p Hr Ha I).
    rewrite Hreg. intros (v & Hv & Hlt). specialize (Hle v Hv). lia.
Qed.
End SetterEdges.

Section SetterInvariants.
Context {State B S : Type} {BSI : BlockStore State B} {SSI : Store State S}.

(** What a nil result tells: the height was in range, no watermark read by
    the call was above it, and the save succeeded. *)
Lemma setter_nil_inv (w : Watermark) (height : int64) (p : Pruner State B S) :
  fst (setter w height p) = err_nil ->
  valid_for w height p /\
  at_most height (own_reading w p) /\
  at_most height (other_reading w p) /\
  fst (Save w height (stateStore p)) = err_nil.
Proof.
  unfold valid_for, in_block_range, in_abci_range, at_most,
    own_reading, other_reading, reading, Get, Save.
  name_replies p. destruct w; unfold_methods.
  all: repeat (split_compare; cbn); try (intros He; discriminate He).
  all: step_reads; try (intros He; discriminate He).
  all: repeat (split_compare; cbn); try (intros He; discriminate He).
  all: step_save; cbn; intros ->; repeat split; try lia.
Qed.

Lemma FindMinRetainHeight_same_replies (p q : Pruner State B S) :
  GetApplicationRetainHeight (stateStore q) = GetApplicationRetainHeight (stateStore p) ->
  GetCompanionBlockRetainHeight (stateStore q) = GetCompanionBlockRetainHeight (stateStore p) ->
  fst (FindMinRetainHeight q) = fst (FindMinRetainHeight p).
Proof.
  intros Ha Hd. name_replies p. unfold_methods.
  repeat (cbn; rewrite ?Ha, ?Hd;
          repeat match goal with
                 | E : _ = (_, _) |- _ => rewrite E
                 end;
          try step_error).
  all: repeat (split_compare; cbn); reflexivity.
Qed.

Context {laws : StoreLaws S}.

(** X5. Over a state store with get/set semantics, a setter that returns nil
    leaves its watermark reading the requested height; that watermark was
    unset or at most the requested height before, so an accepted call never
    lowers it; the other two watermarks read as before and the ledger is
    untouched. *)
Theorem setter_success_postcondition
  (w : Watermark) (height : int64) (p : Pruner State B S) :
  fst (setter w height p) = err_nil ->
  Get w (stateStore (snd (setter w height p))) = (height, err_nil) /\
  at_most height (own_reading w p) /\
  (forall w', w' <> w ->
     Get w' (stateStore (snd (setter w height p))) = Get w' (stateStore p)) /\
  bs (snd (setter w height p)) = bs p.
Proof.
  intros He. destruct (setter_nil_inv w height p He) as (Hv & Ho & Hc & Hs).
  destruct (setter_persists w height p Hv (at_most_readable _ _ Ho)
              (at_most_readable _ _ Hc) (at_most_not_regresses _ _ _ Ho Hc))
    as [_ (Hb & Hst & _)].
  rewrite Hst. split; [exact (get_after_save w height _ Hs) |].
  split; [exact Ho |]. split; [| exact Hb].
  intros w' Hw. apply get_other_after_save. congruence.
Qed.

(** X6. Over a state store with get/set semantics, once one stakeholder's
    setter has accepted a height, a request of the other stakeholder for a
    lower in-range height is refused with [RetainHeightRegression] and writes
    nothing; this holds in both directions. *)
Theorem lower_request_of_other_stakeholder_refused
  (p : Pruner State B S) (height lower : int64) :
  lower < height ->
  in_block_range lower p ->
  (fst (SetApplicationRetainHeight height p) = err_nil ->
   fst (SetCompanionRetainHeight lower
          (snd (SetApplicationRetainHeight height p))) = RetainHeightRegression /\
   wrote_nothing (snd (SetApplicationRetainHeight height p))
     (snd (SetCompanionRetainHeight lower
             (snd (SetApplicationRetainHeight height p))))) /\
  (fst (SetCompanionRetainHeight height p) = err_nil ->
   fst (SetApplicationRetainHeight lower
          (snd (SetCompanionRetainHeight height p))) = RetainHeightRegression /\
   wrote_nothing (snd (SetCompanionRetainHeight height p))
     (snd (SetApplicationRetainHeight lower
             (snd (SetCompanionRetainHeight height p))))).
Proof.
  intros Hlt Hr.
  assert (Hboth : forall w w', (w = Application /\ w' = Companion) \/
                               (w = Companion /\ w' = Application) ->
            fst (setter w height p) = err_nil ->
            fst (setter w' lower (snd (setter w height p))) = RetainHeightRegression /\
            wrote_nothing (snd (setter w height p))
              (snd (setter w' lower (snd (setter w height p))))).
  { intros w w' Hw He.
    destruct (setter_nil_inv w height p He) as (Hv & Ho & Hc & Hs).
    destruct (setter_accepted w height p Hv Ho Hc Hs) as (_ & Hb & Hown & Hoth).
    assert (Hown' : other_reading w' (snd (setter w height p)) = Found height)
      by (destruct Hw as [[-> ->] | [-> ->]]; exact Hown).
    assert (Hoth' : own_reading w' (snd (setter w height p)) = other_reading w p)
      by (destruct Hw as [[-> ->] | [-> ->]]; exact Hoth).
    apply setter_regression.
    - apply (valid_for_same_bs w' lower p _ Hb).
      destruct Hw as [[-> ->] | [-> ->]]; exact Hr.
    - rewrite Hoth'. exact (at_most_readable _ _ Hc).
    - rewrite Hown'. exact I.
    - right. rewrite Hown'. exact Hlt. }
  split.
  - exact (Hboth Application Companion (or_introl (conj eq_refl eq_refl))).
  - exact (Hboth Companion Application (or_intror (conj eq_refl eq_refl))).
Qed.

(** X7. Over a state store with get/set semantics whose not-found answers
    carry the zero height, a setter that returns nil never lowers the value
    of [FindMinRetainHeight]: the height the pruning loop works from can only
    stay or grow through accepted calls. *)
Theorem effective_height_never_decreases
  (w : Watermark) (height : int64) (p : Pruner State B S) :
  (forall w' v, Get w' (stateStore p) = (v, ErrKeyNotFound) -> v = 0) ->
  fst (setter w height p) = err_nil ->
  fst (FindMinRetainHeight p) <=
  fst (FindMinRetainHeight (snd (setter w height p))).
Proof.
  intros Hz He.
  destruct (setter_nil_inv w height p He) as (Hv & Ho & Hc & Hs).
  destruct (setter_persists w height p Hv (at_most_readable _ _ Ho)
              (at_most_readable _ _ Hc) (at_most_not_regresses _ _ _ Ho Hc))
    as [_ (_ & Hst & _)].
  pose proof (get_after_save w height _ Hs) as Hsame.
  pose proof (fun w' Hw => get_other_after_save w w' height (stateStore p) Hw)
    as Hframe.
  rewrite <- Hst in Hsame, Hframe.
  set (p' := snd (setter w height p)) in *.
  assert (Hpos : 0 < height)
    by (destruct w; cbn in Hv; unfold in_block_range, in_abci_range in Hv; lia).
  destruct w.
  - pose proof (Hframe Companion ltac:(discriminate)) as Hd. cbn in Hsame, Hd.
    unfold own_reading, other_reading, reading, Get in Ho, Hc.
    pose proof (Hz Application) as Hza. pose proof (Hz Companion) as Hzd.
    cbn in Hza, Hzd.
    destruct (GetApplicationRetainHeight (stateStore p)) as [a ea] eqn:Ea.
    destruct (GetCompanionBlockRetainHeight (stateStore p)) as [d ed] eqn:Ed.
    cbn in Ho, Hc.
    destruct ea; cbn in Ho; try contradiction;
      destruct ed; cbn in Hc; try contradiction.
    + rewrite (FindMinRetainHeight_both_set p a d Ea Ed),
        (FindMinRetainHeight_both_set p' height d Hsame Hd). lia.
    + rewrite (FindMinRetainHeight_application_only p a d Ea Ed),
        (FindMinRetainHeight_application_only p' height d Hsame Hd). lia.
    + rewrite (FindMinRetainHeight_application_unset p a d err_nil Ea Ed
                 (or_introl eq_refl)),
        (FindMinRetainHeight_both_set p' height d Hsame Hd). lia.
    + rewrite (FindMinRetainHeight_application_unset p a d ErrKeyNotFound Ea Ed
                 (or_intror eq_refl)),
        (FindMinRetainHeight_application_only p' height d Hsame Hd).
      specialize (Hza a eq_refl). lia.
  - pose proof (Hframe Application ltac:(discriminate)) as Ha. cbn in Hsame, Ha.
    unfold own_reading, other_reading, reading, Get in Ho, Hc.
    pose proof (Hz Application) as Hza. cbn in Hza.
    destruct (GetApplicationRetainHeight (stateStore p)) as [a ea] eqn:Ea.
    destruct (GetCompanionBlockRetainHeight (stateStore p)) as [d ed] eqn:Ed.
    cbn in Ho, Hc.
    destruct ea; cbn in Hc; try contradiction;
      destruct ed; cbn in Ho; try contradiction.
    + rewrite (FindMinRetainHeight_both_set p a d Ea Ed),
        (FindMinRetainHeight_both_set p' a height Ha Hsame). lia.
    + rewrite (FindMinRetainHeight_application_only p a d Ea Ed),
        (FindMinRetainHeight_both_set p' a height Ha Hsame). lia.
    + rewrite (FindMinRetainHeight_application_unset p a d err_nil Ea Ed
                 (or_introl eq_refl)),
        (FindMinRetainHeight_application_unset p' a height err_nil Ha Hsame
                 (or_introl eq_refl)). lia.
    + rewrite (FindMinRetainHeight_application_unset p a d ErrKeyNotFound Ea Ed
                 (or_intror eq_refl)),
        (FindMinRetainHeight_application_unset p' a height err_nil Ha Hsame
                 (or_introl eq_refl)).
      specialize (Hza a eq_refl). lia.
  - assert (Heq : fst (FindMinRetainHeight p') = fst (FindMinRetainHeight p)).
    { apply FindMinRetainHeight_same_replies.
      - exact (Hframe Application ltac:(discriminate)).
      - exact (Hframe Companion ltac:(discriminate)). }
    rewrite Heq. lia.
Qed.
End SetterInvariants.

Section ResolverEdges.
Context {State B S : Type} {BSI : BlockStore State B} {SSI : Store State S}.

(** X8. The value of [FindMinRetainHeight] when both reads answer with a
    height or with not-found: it is the application height when that one is
    set and the companion's is not; in every other case it is the minimum of
    the two values the getters returned, the value that came with
    [ErrKeyNotFound] included. *)
Theorem FindMinRetainHeight_value
  (p : Pruner State B S) (a d : int64) (ea ed : error) :
  GetApplicationRetainHeight (stateStore p) = (a, ea) ->
  GetCompanionBlockRetainHeight (stateStore p) = (d, ed) ->
  readable (reading (a, ea)) -> readable (reading (d, ed)) ->
  fst (FindMinRetainHeight p) =
  match ea, ed with
  | err_nil, ErrKeyNotFound => a
  | _, _ => Z.min a d
  end.
Proof.
  intros Ha Hd Hra Hrd. unfold_methods. cbn. rewrite Ha.
  destruct ea; cbn in Hra; try contradiction; cbn; rewrite Hd;
    destruct ed; cbn in Hrd; try contradiction; cbn;
    try reflexivity; split_compare; cbn; lia.
Qed.

(** X9. A read that fails with an error other than [ErrKeyNotFound] makes
    [FindMinRetainHeight] return 0.  When it is the application read that
    fails, the companion height is not read at all. *)
Theorem FindMinRetainHeight_read_failure_gives_zero
  (p : Pruner State B S) (e : error) :
  (reading (GetApplicationRetainHeight (stateStore p)) = ReadFailed e ->
   FindMinRetainHeight p = (0, noted ss_GetApplicationRetainHeight p)) /\
  (readable (reading (GetApplicationRetainHeight (stateStore p))) ->
   reading (GetCompanionBlockRetainHeight (stateStore p)) = ReadFailed e ->
   fst (FindMinRetainHeight p) = 0).
Proof.
  unfold reading. name_replies p. unfold_methods. split.
  - cbn. rewrite Eapp. destruct eapp; cbn; intros H; try discriminate H;
      reflexivity.
  - cbn. rewrite Eapp. destruct eapp; cbn; intros Hr; try contradiction;
      rewrite Edc; destruct edc; cbn; intros H; try discriminate H;
      reflexivity.
Qed.

(** X10. [FindMinRetainHeight] never returns more than a retain height that
    is set: with the application height set to a non-negative [a] the result
    is at most [a], and with the companion height set to a non-negative [d]
    it is at most [d], whatever the other read answers. *)
Theorem FindMinRetainHeight_at_most_each_set_height
  (p : Pruner State B S) (h : int64) :
  0 <= h ->
  (GetApplicationRetainHeight (stateStore p) = (h, err_nil) ->
   fst (FindMinRetainHeight p) <= h) /\
  (GetCompanionBlockRetainHeight (stateStore p) = (h, err_nil) ->
   fst (FindMinRetainHeight p) <= h).
Proof.
  intros Hh. split.
  - intros Ha. unfold_methods. cbn. rewrite Ha. cbn.
    destruct (GetCompanionBlockRetainHeight (stateStore p)) as [d []];
      cbn; repeat (split_compare; cbn); lia.
  - intros Hd. unfold_methods. cbn.
    destruct (GetApplicationRetainHeight (stateStore p)) as [a []];
      cbn; rewrite ?Hd; cbn; repeat (split_compare; cbn); lia.
Qed.
End ResolverEdges.

Section ExecutorEdges.
Context {State B S : Type} {BSI : BlockStore State B} {SSI : Store State S}.

(** X11. [pruneBlocks] past a successful [Load], for any outcome of the two
    prune steps.  The ledger is pruned first and the state store second; the
    state store is given the base the ledger had before it was pruned,
    together with the evidence retain height the ledger returned.  The
    result is the ledger's count and evidence retain height with the error of
    [PruneStates].  One line is logged for the ledger step, at error level
    when it failed, and one more, at error level, when [PruneStates]
    failed. *)
Theorem pruneBlocks_full_run
  (p : Pruner State B S) (height : int64)
  (state : State) (pruned : uint64) (ev : int64) (e e' : error) (b' : B) (s' : S) :
  0 < height ->
  Load (stateStore p) = (state, err_nil) ->
  PruneBlocks height state (bs p) = ((pruned, ev, e), b') ->
  PruneStates (Base (bs p)) height ev (stateStore p) = (e', s') ->
  pruneBlocks height p =
  ((pruned, ev, e'),
   mkPruner State B S b' s'
     (logger p
      ++ [match e with
          | err_nil => (LvlDebug, "Pruned blocks"%string)
          | _ => (LvlError, "Failed to prune blocks at height"%string)
          end]
      ++ match e' with
         | err_nil => []
         | _ => [(LvlError, "Failed to prune the state store"%string)]
         end)
     (interval p)
     (calls p ++ [bs_Base; ss_Load; bs_PruneBlocks height state;
                  ss_PruneStates (Base (bs p)) height ev])).
Proof.
  intros Hh Hl Hb Hs. unfold_methods. split_compare; [lia |].
  cbn. rewrite Hl. cbn. rewrite Hb. cbn.
  destruct e; cbn; rewrite Hs; destruct e'; cbn;
    unfold with_stateStore, logged, with_bs, noted; cbn;
    rewrite <- ?app_assoc; reflexivity.
Qed.
End ExecutorEdges.

Section SchedulerEdges.
Context {State B S : Type} {BSI : BlockStore State B} {SSI : Store State S}.

(** X12. Whatever happens in an iteration of the pruning loop, the block
    cursor it ends with is the value [FindMinRetainHeight] returned at its
    start: a height is recorded as pruned whether [pruneBlocks] succeeded or
    failed. *)
Theorem pruningIteration_block_cursor
  (lastHeightPruned lastABCIResPrunedHeight : int64) (p : Pruner State B S) :
  fst (fst (pruningIteration lastHeightPruned lastABCIResPrunedHeight p)) =
  fst (FindMinRetainHeight p).
Proof.
  unfold pruningIteration, bind, ret.
  destruct (FindMinRetainHeight p) as [r p1]. cbn.
  destruct (Z.eqb_spec r lastHeightPruned) as [-> | Hne]; cbn.
  - repeat match goal with
           | |- context [let (_, _) := ?e in _] => destruct e
           end; reflexivity.
  - destruct (pruneBlocks r p1) as [[[n ev] err] p2]. cbn.
    destruct err; cbn;
      repeat match goal with
             | |- context [let (_, _) := ?e in _] => destruct e
             end; reflexivity.
Qed.

(** X13. An iteration that finds the value of [FindMinRetainHeight] equal to
    the block cursor prunes no block and no state: the ledger is untouched,
    the cursor stays, and the only write the iteration may command is
    [PruneABCIResponses], which it does exactly when the ABCI-results read
    succeeds with a height different from the ABCI cursor. *)
Theorem pruningIteration_skips_unchanged_height
  (lastHeightPruned lastABCIResPrunedHeight : int64) (p : Pruner State B S) :
  fst (FindMinRetainHeight p) = lastHeightPruned ->
  bs (snd (pruningIteration lastHeightPruned lastABCIResPrunedHeight p)) = bs p /\
  fst (fst (pruningIteration lastHeightPruned lastABCIResPrunedHeight p)) =
    lastHeightPruned /\
  writes (calls (snd (pruningIteration lastHeightPruned lastABCIResPrunedHeight p))) =
    writes (calls p) ++
    match GetABCIResRetainHeight (stateStore p) with
    | (h, err_nil) =>
        if lastABCIResPrunedHeight =? h then [] else [ss_PruneABCIResponses h]
    | _ => []
    end.
Proof.
  intros Heq.
  pose proof (FindMinRetainHeight_wrote_nothing p) as (Hb & Hs & Hw).
  unfold pruningIteration, bind, ret.
  destruct (FindMinRetainHeight p) as [r p1]. cbn in *. subst r.
  rewrite Z.eqb_refl. cbn. rewrite Hs.
  destruct (GetABCIResRetainHeight (stateStore p)) as [h []]; cbn.
  1: destruct (lastABCIResPrunedHeight =? h); cbn.
  2: unfold p_stateStore_PruneABCIResponses, p_logger_Debug; cbn; rewrite Hs;
     destruct (PruneABCIResponses h (stateStore p)) as [[n e] s']; cbn.
  all: repeat split; try assumption.
  all: unfold writes in *; cbn; repeat (rewrite filter_app; cbn).
  all: rewrite ?Hw, ?app_nil_r; reflexivity.
Qed.


(** X15. However long the loop runs and whatever the stores answer, its ABCI
    cursor is never changed: the pair of cursors it ends with has, for the
    ABCI cursor, the value the loop started with, which is 0 in
    [pruningRoutine]. *)
Theorem pruningLoop_abci_cursor_constant
  (quit : list bool) (lastHeightPruned lastABCIResPrunedHeight : int64)
  (p : Pruner State B S) :
  snd (fst (pruningLoop quit lastHeightPruned lastABCIResPrunedHeight p)) =
    lastABCIResPrunedHeight /\
  snd (fst (pruningRoutine quit p)) = 0.
Proof.
  assert (Hloop : forall q l1 l2 (r : Pruner State B S),
            snd (fst (pruningLoop q l1 l2 r)) = l2).
  { induction q as [| [] q IH]; intros l1 l2 r; cbn; try reflexivity.
    unfold bind.
    pose proof (pruningIteration_abci_cursor l1 l2 r) as Hc.
    destruct (pruningIteration l1 l2 r) as [[c1 c2] r1]. cbn in Hc. subst c2.
    apply IH. }
  split; [apply Hloop |]. unfold pruningRoutine. apply Hloop.
Qed.

(** X16. The loop returns at the first iteration at which the quit signal is
    ready: what the signal would have been at later iterations makes no
    difference, and nothing is called after that point. *)
Theorem pruningLoop_stops_at_quit
  (n : nat) (later : list bool)
  (lastHeightPruned lastABCIResPrunedHeight : int64) (p : Pruner State B S) :
  pruningLoop (repeat false n ++ true :: later)
    lastHeightPruned lastABCIResPrunedHeight p =
  pruningLoop (repeat false n) lastHeightPruned lastABCIResPrunedHeight p.
Proof.
  revert lastHeightPruned lastABCIResPrunedHeight p.
  induction n as [| n IH]; intros l1 l2 p; cbn; [reflexivity |].
  unfold bind. destruct (pruningIteration l1 l2 p) as [[c1 c2] p1].
  apply IH.
Qed.
End SchedulerEdges.

Section ConstructionFacts.
Variable DefaultPruningInterval : Z.

(** X17. [NewPruner] keeps the two stores and the logger it is given and
    starts from the default interval; its options are applied in order, so
    that the interval is the one of the last [PrunerInterval] option, and the
    default when there is no option. *)
Theorem NewPruner_interval_of_last_option
  {State B S : Type} (stateStore0 : S) (bs0 : B) (logger0 : list LogLine)
  (options : list PrunerOption) (t : Z) :
  let p := NewPruner DefaultPruningInterval stateStore0 bs0 logger0
             (options ++ [PrunerInterval t]) : Pruner State B S in
  let q := NewPruner DefaultPruningInterval stateStore0 bs0 logger0 []
             : Pruner State B S in
  interval p = t /\ interval q = DefaultPruningInterval /\
  bs p = bs0 /\ stateStore p = stateStore0 /\ logger p = logger0.
Proof.
  cbn. rewrite fold_left_app. cbn. repeat split.
Qed.
End ConstructionFacts.

(** ** The further statements at concrete inputs *)

(** X1 at [application_unreadable] and at [companion_unreadable]. *)
Lemma setter_returns_read_error_witness :
  valid_for Application 8 application_unreadable /\
  own_reading Application application_unreadable = ReadFailed (ErrExternal 3) /\
  fst (SetApplicationRetainHeight 8 application_unreadable) = ErrExternal 3 /\
  valid_for Application 5 companion_unreadable /\
  readable (own_reading Application companion_unreadable) /\
  other_reading Application companion_unreadable = ReadFailed (ErrExternal 3) /\
  fst (SetApplicationRetainHeight 5 companion_unreadable) = ErrExternal 3.
Proof.
  assert (Hv8 : valid_for Application 8 application_unreadable)
    by (unfold valid_for, in_block_range; cbn; lia).
  assert (Hv5 : valid_for Application 5 companion_unreadable)
    by (unfold valid_for, in_block_range; cbn; lia).
  assert (Ho8 : own_reading Application application_unreadable
                = ReadFailed (ErrExternal 3)) by reflexivity.
  assert (Ho5 : readable (own_reading Application companion_unreadable))
    by exact I.
  assert (Hc5 : other_reading Application companion_unreadable
                = ReadFailed (ErrExternal 3)) by reflexivity.
  destruct (setter_returns_read_error Application 8 application_unreadable
              (ErrExternal 3) Hv8 (or_introl Ho8)) as [H8 _].
  destruct (setter_returns_read_error Application 5 companion_unreadable
              (ErrExternal 3) Hv5 (or_intror (conj Ho5 Hc5))) as [H5 _].
  split; [exact Hv8 |]. split; [exact Ho8 |]. split; [exact H8 |].
  split; [exact Hv5 |]. split; [exact Ho5 |]. split; [exact Hc5 | exact H5].
Defined.

(** X3 at [base_at_5]: height 0, and height 3 below the base 5. *)
Lemma setter_checks_range_before_state_store_witness :
  0 <= 0 /\
  SetApplicationRetainHeight 0 base_at_5 = (ErrInvalidHeightValue, base_at_5) /\
  ~ valid_for Application 3 base_at_5 /\
  fst (SetApplicationRetainHeight 3 base_at_5) = ErrInvalidHeightValue /\
  stateStore (snd (SetApplicationRetainHeight 3 base_at_5)) = stateStore base_at_5.
Proof.
  assert (H0 : 0 <= 0) by lia.
  assert (Hn : ~ valid_for Application 3 base_at_5)
    by (unfold valid_for, in_block_range; cbn; lia).
  destruct (setter_checks_range_before_state_store Application 0 base_at_5)
    as [Hzero _].
  destruct (setter_checks_range_before_state_store Application 3 base_at_5)
    as [_ Hlow].
  destruct (Hlow Hn) as (He & Hs & _).
  split; [exact H0 |]. split; [exact (Hzero H0) |].
  split; [exact Hn |]. split; [exact He | exact Hs].
Defined.

(** X4 at [application_5_companion_7], whose ABCI-results height is 4, with
    heights 3 and 6. *)
Lemma SetABCIResRetainHeight_rejects_exactly_on_regression_witness :
  in_abci_range 3 application_5_companion_7 /\
  in_abci_range 6 application_5_companion_7 /\
  readable (reading (GetABCIResRetainHeight (stateStore application_5_companion_7))) /\
  fst (SetABCIResRetainHeight 3 application_5_companion_7) = RetainHeightRegression /\
  persisted ABCIResults 6 application_5_companion_7
    (snd (SetABCIResRetainHeight 6 application_5_companion_7)).
Proof.
  assert (H3 : in_abci_range 3 application_5_companion_7)
    by (unfold in_abci_range; cbn; lia).
  assert (H6 : in_abci_range 6 application_5_companion_7)
    by (unfold in_abci_range; cbn; lia).
  assert (Hr : readable (reading (GetABCIResRetainHeight
                                    (stateStore application_5_companion_7))))
    by exact I.
  destruct (SetABCIResRetainHeight_rejects_exactly_on_regression
              application_5_companion_7 3 H3 Hr) as [[_ Hrej] _].
  destruct (SetABCIResRetainHeight_rejects_exactly_on_regression
              application_5_companion_7 6 H6 Hr) as [_ Hsave].
  split; [exact H3 |]. split; [exact H6 |]. split; [exact Hr |]. split.
  - apply Hrej. exists 4. split; [reflexivity | lia].
  - apply Hsave. intros v Hv. cbn in Hv. injection Hv as <-. lia.
Defined.

(** X5 at [fresh] with height 5. *)
Lemma setter_success_postcondition_witness :
  fst (SetApplicationRetainHeight 5 fresh) = err_nil /\
  GetApplicationRetainHeight (stateStore (snd (SetApplicationRetainHeight 5 fresh)))
    = (5, err_nil) /\
  bs (snd (SetApplicationRetainHeight 5 fresh)) = bs fresh.
Proof.
  assert (He : fst (setter Application 5 fresh) = err_nil) by reflexivity.
  destruct (setter_success_postcondition Application 5 fresh He)
    as (Hget & _ & _ & Hb).
  split; [exact He |]. split; [exact Hget | exact Hb].
Defined.

(** X6 at [fresh]: the application accepts 5, the companion then asks for 3. *)
Lemma lower_request_of_other_stakeholder_refused_witness :
  3 < 5 /\ in_block_range 3 fresh /\
  fst (SetApplicationRetainHeight 5 fresh) = err_nil /\
  fst (SetCompanionRetainHeight 3 (snd (SetApplicationRetainHeight 5 fresh)))
    = RetainHeightRegression.
Proof.
  assert (Hlt : 3 < 5) by lia.
  assert (Hr : in_block_range 3 fresh) by (unfold in_block_range; cbn; lia).
  assert (He : fst (SetApplicationRetainHeight 5 fresh) = err_nil) by reflexivity.
  destruct (lower_request_of_other_stakeholder_refused fresh 5 3 Hlt Hr)
    as [Happ _].
  destruct (Happ He) as [Hrej _].
  split; [exact Hlt |]. split; [exact Hr |]. split; [exact He | exact Hrej].
Defined.

(** X7 at [companion_at_3]: the application sets 5 and the value of
    [FindMinRetainHeight] goes from 0 to 3. *)
Lemma effective_height_never_decreases_witness :
  (forall w' v, Get w' (stateStore companion_at_3) = (v, ErrKeyNotFound) -> v = 0) /\
  fst (SetApplicationRetainHeight 5 companion_at_3) = err_nil /\
  fst (FindMinRetainHeight companion_at_3) <=
  fst (FindMinRetainHeight (snd (SetApplicationRetainHeight 5 companion_at_3))).
Proof.
  assert (Hz : forall w' v,
             Get w' (stateStore companion_at_3) = (v, ErrKeyNotFound) -> v = 0).
  { intros w' v. destruct w'; cbn; intros H;
      first [discriminate H | injection H as <-; reflexivity]. }
  assert (He : fst (setter Application 5 companion_at_3) = err_nil)
    by reflexivity.
  split; [exact Hz |]. split; [exact He |].
  exact (effective_height_never_decreases Application 5 companion_at_3 Hz He).
Defined.

(** X8 at [application_5_companion_7]. *)
Lemma FindMinRetainHeight_value_witness :
  GetApplicationRetainHeight (stateStore application_5_companion_7) = (5, err_nil) /\
  GetCompanionBlockRetainHeight (stateStore application_5_companion_7) = (7, err_nil) /\
  fst (FindMinRetainHeight application_5_companion_7) = Z.min 5 7.
Proof.
  assert (Ha : GetApplicationRetainHeight (stateStore application_5_companion_7)
               = (5, err_nil)) by reflexivity.
  assert (Hd : GetCompanionBlockRetainHeight (stateStore application_5_companion_7)
               = (7, err_nil)) by reflexivity.
  split; [exact Ha |]. split; [exact Hd |].
  exact (FindMinRetainHeight_value application_5_companion_7 5 7 err_nil err_nil
           Ha Hd I I).
Defined.

(** X9 at [application_unreadable] and at [companion_unreadable]. *)
Lemma FindMinRetainHeight_read_failure_gives_zero_witness :
  reading (GetApplicationRetainHeight (stateStore application_unreadable))
    = ReadFailed (ErrExternal 3) /\
  FindMinRetainHeight application_unreadable
    = (0, noted ss_GetApplicationRetainHeight application_unreadable) /\
  reading (GetCompanionBlockRetainHeight (stateStore companion_unreadable))
    = ReadFailed (ErrExternal 3) /\
  fst (FindMinRetainHeight companion_unreadable) = 0.
Proof.
  assert (Ha : reading (GetApplicationRetainHeight (stateStore application_unreadable))
               = ReadFailed (ErrExternal 3)) by reflexivity.
  assert (Hr : readable (reading (GetApplicationRetainHeight
                                    (stateStore companion_unreadable))))
    by exact I.
  assert (Hd : reading (GetCompanionBlockRetainHeight (stateStore companion_unreadable))
               = ReadFailed (ErrExternal 3)) by reflexivity.
  destruct (FindMinRetainHeight_read_failure_gives_zero application_unreadable
              (ErrExternal 3)) as [Happ _].
  destruct (FindMinRetainHeight_read_failure_gives_zero companion_unreadable
              (ErrExternal 3)) as [_ Hdc].
  split; [exact Ha |]. split; [exact (Happ Ha) |].
  split; [exact Hd | exact (Hdc Hr Hd)].
Defined.

(** X10 at [application_5_companion_7]. *)
Lemma FindMinRetainHeight_at_most_each_set_height_witness :
  0 <= 7 /\
  GetCompanionBlockRetainHeight (stateStore application_5_companion_7) = (7, err_nil) /\
  fst (FindMinRetainHeight application_5_companion_7) <= 7.
Proof.
  assert (H7 : 0 <= 7) by lia.
  assert (Hd : GetCompanionBlockRetainHeight (stateStore application_5_companion_7)
               = (7, err_nil)) by reflexivity.
  destruct (FindMinRetainHeight_at_most_each_set_height
              application_5_companion_7 7 H7) as [_ Hdc].
  split; [exact H7 |]. split; [exact Hd | exact (Hdc Hd)].
Defined.

(** X11 at [state_prune_fails] with height 5: the ledger removes four blocks
    and its base becomes 5, while [PruneStates] is given the base 1 and
    fails. *)
Lemma pruneBlocks_full_run_witness :
  0 < 5 /\
  fst (pruneBlocks 5 state_prune_fails) = (4%N, 5, ErrExternal 4) /\
  Base (bs (snd (pruneBlocks 5 state_prune_fails))) = 5 /\
  calls (snd (pruneBlocks 5 state_prune_fails)) =
    [bs_Base; ss_Load; bs_PruneBlocks 5 tt; ss_PruneStates 1 5 5] /\
  logger (snd (pruneBlocks 5 state_prune_fails)) =
    [(LvlDebug, "Pruned blocks"%string);
     (LvlError, "Failed to prune the state store"%string)].
Proof.
  assert (H5 : 0 < 5) by lia.
  assert (Hl : Load (stateStore state_prune_fails) = (tt, err_nil))
    by reflexivity.
  assert (Hb : PruneBlocks 5 tt (bs state_prune_fails) =
               ((4%N, 5, err_nil), ledger 5 10)) by reflexivity.
  assert (Hs : PruneStates (Base (bs state_prune_fails)) 5 5
                 (stateStore state_prune_fails) =
               (ErrExternal 4, stateStore state_prune_fails)) by reflexivity.
  rewrite (pruneBlocks_full_run state_prune_fails 5 tt 4%N 5 err_nil
             (ErrExternal 4) (ledger 5 10) (stateStore state_prune_fails)
             H5 Hl Hb Hs).
  split; [exact H5 |]. repeat split.
Defined.

(** X13 at [application_5_companion_7] with the block cursor at 5 and the
    ABCI cursor at 0. *)
Lemma pruningIteration_skips_unchanged_height_witness :
  fst (FindMinRetainHeight application_5_companion_7) = 5 /\
  bs (snd (pruningIteration 5 0 application_5_companion_7))
    = bs application_5_companion_7 /\
  writes (calls (snd (pruningIteration 5 0 application_5_companion_7)))
    = [ss_PruneABCIResponses 4].
Proof.
  assert (Hf : fst (FindMinRetainHeight application_5_companion_7) = 5)
    by reflexivity.
  destruct (pruningIteration_skips_unchanged_height 5 0
              application_5_companion_7 Hf) as (Hb & _ & Hw).
  split; [exact Hf |]. split; [exact Hb | exact Hw].
Defined.

